(** * A shallow embedding of the user CRUD service (server.js, models/User.js)

    The service is request-handling glue around three collaborators that
    are not part of the repository: the express-validator chains, the
    Mongoose model compiled from [userSchema], and the MongoDB collection
    behind it.  The handlers of server.js are embedded as programs over an
    explicit interface of model calls ([Async]); the collaborators are given
    an executable semantics that follows their documented behaviour
    (schema setters run when documents, filters and updates are cast;
    [required] rejects the empty string; the unique index rejects a second
    document with the same stored email; the 24 hexadecimal digits of an
    identifier cast to an ObjectId).  The store is taken to answer every
    call: a call is rejected by a cast, a validation or a duplicate-key
    error only.

    JavaScript strings are modelled as [string], one [ascii] per code unit,
    so the development covers code units below 256 (Latin-1).  Request
    bodies are JSON objects whose four fields are absent or strings. *)

From Stdlib Require Import Bool List String Ascii NArith Arith Lia.
Import ListNotations.
Local Open Scope string_scope.

(** ** JavaScript string primitives used by the schema setters *)

Module JS.

(** [WhiteSpace] and [LineTerminator] code units below 256:
    TAB, LF, VT, FF, CR, SP and NBSP. *)
Definition isWhiteSpace (c : ascii) : bool :=
  let n := N_of_ascii c in
  (((9 <=? n) && (n <=? 13)) || (n =? 32) || (n =? 160))%N.

Fixpoint trimStart (s : string) : string :=
  match s with
  | EmptyString => EmptyString
  | String c s' => if isWhiteSpace c then trimStart s' else s
  end.

Fixpoint trimEnd (s : string) : string :=
  match s with
  | EmptyString => EmptyString
  | String c s' =>
      match trimEnd s' with
      | EmptyString =>
          if isWhiteSpace c then EmptyString else String c EmptyString
      | t => String c t
      end
  end.

(** [String.prototype.trim] *)
Definition trim (s : string) : string := trimEnd (trimStart s).

(** Lower-case mapping of one code unit: A-Z, and the Latin-1 capitals
    U+00C0..U+00DE without the multiplication sign U+00D7. *)
Definition lowerChar (c : ascii) : ascii :=
  let n := N_of_ascii c in
  if (((65 <=? n) && (n <=? 90))
      || ((192 <=? n) && (n <=? 222) && negb (n =? 215)))%N
  then ascii_of_N (n + 32)
  else c.

Fixpoint mapChars (f : ascii -> ascii) (s : string) : string :=
  match s with
  | EmptyString => EmptyString
  | String c s' => String (f c) (mapChars f s')
  end.

(** [String.prototype.toLowerCase] *)
Definition toLowerCase (s : string) : string := mapChars lowerChar s.

Fixpoint everyChar (p : ascii -> bool) (s : string) : bool :=
  match s with
  | EmptyString => true
  | String c s' => p c && everyChar p s'
  end.

(** [str.split(sep)] for a one-character separator: never empty. *)
Fixpoint split (sep : ascii) (s : string) : list string :=
  match s with
  | EmptyString => [EmptyString]
  | String c s' =>
      match split sep s' with
      | [] => [EmptyString]
      | p :: ps =>
          if Ascii.eqb c sep then EmptyString :: p :: ps
          else String c p :: ps
      end
  end.

(** [parts.join(sep)] *)
Fixpoint join (sep : ascii) (parts : list string) : string :=
  match parts with
  | [] => EmptyString
  | [p] => p
  | p :: ps => p ++ String sep (join sep ps)
  end.

End JS.

(** ** validator.js: the two string validators behind the chains

    [isEmpty] and [isEmail] with their default options, on the code units
    modelled here.  The handlers below are parametric in the e-mail
    validator; this instance is the one the service is wired with. *)

Module Validator.

Definition between (lo hi : N) (c : ascii) : bool :=
  let n := N_of_ascii c in ((lo <=? n) && (n <=? hi))%N.

Definition isChar (k : N) (c : ascii) : bool := (N_of_ascii c =? k)%N.

Definition isLetter (c : ascii) : bool := between 97 122 c || between 65 90 c.
Definition isDigit (c : ascii) : bool := between 48 57 c.

(** [isEmpty(str)] with [ignore_whitespace: false] *)
Definition isEmpty (str : string) : bool := (String.length str =? 0)%nat.

(** UTF-8 length of a string of code units below 256 *)
Fixpoint byteLength (s : string) : nat :=
  match s with
  | EmptyString => 0
  | String c s' => (if between 0 127 c then 1 else 2) + byteLength s'
  end.

(** the pattern of a top-level domain: two or more letters (or code
    units 161-168, 170-255), or xn followed by two or more letters,
    digits or hyphens; case-insensitive *)
Definition tldChar (c : ascii) : bool :=
  isLetter c || between 161 168 c || between 170 255 c.
Definition punyChar (c : ascii) : bool :=
  isLetter c || isDigit c || isChar 45 c.
Definition tldPattern (tld : string) : bool :=
  ((2 <=? String.length tld)%nat && JS.everyChar tldChar tld)
  || match tld with
     | String x (String n rest) =>
         (isChar 120 x || isChar 88 x) && (isChar 110 n || isChar 78 n)
         && (2 <=? String.length rest)%nat && JS.everyChar punyChar rest
     | _ => false
     end.

(** the characters of a domain label: letters, digits, underscore,
    hyphen and the code units from 161 *)
Definition labelChar (c : ascii) : bool :=
  isLetter c || isChar 95 c || between 161 255 c || isDigit c || isChar 45 c.

Fixpoint lastChar (s : string) : option ascii :=
  match s with
  | EmptyString => None
  | String c EmptyString => Some c
  | String _ s' => lastChar s'
  end.

Definition firstChar (s : string) : option ascii :=
  match s with
  | EmptyString => None
  | String c _ => Some c
  end.

Definition optIs (k : N) (o : option ascii) : bool :=
  match o with
  | Some c => isChar k c
  | None => false
  end.

Definition fqdnPart (part : string) : bool :=
  (String.length part <=? 63)%nat
  && negb (isEmpty part) && JS.everyChar labelChar part
  && negb (optIs 45 (firstChar part) || optIs 45 (lastChar part))
  && JS.everyChar (fun c => negb (isChar 95 c)) part.

(** [isFQDN(str)] with [require_tld], without trailing dot, wildcard,
    underscores or numeric top-level domain *)
Definition isFQDN (str : string) : bool :=
  let parts := JS.split "." str in
  let tld := last parts EmptyString in
  (2 <=? List.length parts)%nat
  && tldPattern tld
  && JS.everyChar (fun c => negb (JS.isWhiteSpace c)) tld
  && negb (negb (isEmpty tld) && JS.everyChar isDigit tld)
  && forallb fqdnPart parts.

(** [emailUserUtf8Part]: letters, digits, the punctuation RFC 5322
    allows in an atom, and the code units from 161 *)
Definition userChar (c : ascii) : bool :=
  isLetter c || isDigit c
  || isChar 33 c || between 35 39 c || isChar 42 c || isChar 43 c
  || isChar 45 c || isChar 47 c || isChar 61 c || isChar 63 c
  || between 94 96 c || between 123 126 c || between 161 255 c.

Definition userPart (part : string) : bool :=
  negb (isEmpty part) && JS.everyChar userChar part.

(** [quotedEmailUserUtf8]: plain characters, or a backslash followed by
    an escaped character, repeated *)
Definition quotedPlain (c : ascii) : bool :=
  JS.isWhiteSpace c || between 1 8 c || isChar 11 c || isChar 12 c
  || between 14 31 c || isChar 127 c || isChar 33 c || between 35 91 c
  || between 93 126 c || between 160 255 c.
Definition quotedEscaped (c : ascii) : bool :=
  between 1 9 c || isChar 11 c || isChar 12 c || between 13 127 c
  || between 160 255 c.
Fixpoint quotedUser (s : string) : bool :=
  match s with
  | EmptyString => true
  | String c s' =>
      if quotedPlain c then quotedUser s'
      else if isChar 92 c then
        match s' with
        | String e s'' => quotedEscaped e && quotedUser s''
        | EmptyString => false
        end
      else false
  end.

(** [user.slice(1, user.length - 1)] *)
Definition sliceInner (user : string) : string :=
  String.substring 1 (String.length user - 2) user.

(** [isEmail(str)] with the default options *)
Definition isEmail (str : string) : bool :=
  if (254 <? String.length str)%nat then false
  else
    let parts := JS.split "@" str in
    let domain := last parts EmptyString in
    let user := JS.join "@" (removelast parts) in
    if negb ((byteLength user <=? 64)%nat && (byteLength domain <=? 254)%nat)
    then false
    else if negb (isFQDN domain) then false
    else if optIs 34 (firstChar user) && optIs 34 (lastChar user)
    then quotedUser (sliceInner user)
    else forallb userPart (JS.split "." user).

End Validator.

(** ** models/User.js: the schema and the documents of collection crud *)

Definition ObjectId := N.

Record User := mkUser {
  _id : ObjectId;
  name : string;
  surname : string;
  email : string;
  jobTitle : string;
  createdAt : N;
  updatedAt : N
}.

(** The options a String path of the schema declares. *)
Record SchemaString := mkPath {
  required : bool;
  unique : bool;
  lowercase : bool;
  trim : bool
}.

Module userSchema.
Definition name : SchemaString :=
  {| required := true; unique := false; lowercase := false; trim := true |}.
Definition surname : SchemaString :=
  {| required := true; unique := false; lowercase := false; trim := true |}.
Definition email : SchemaString :=
  {| required := true; unique := true; lowercase := true; trim := true |}.
Definition jobTitle : SchemaString :=
  {| required := true; unique := false; lowercase := false; trim := true |}.
End userSchema.

(** ** Mongoose: casting, validation and the model calls *)

(** A JavaScript value handed to the model: [undefined] or a string. *)
Definition Value := option string.

(** The setters [lowercase] and [trim] install, in declaration order. *)
Definition applySetters (p : SchemaString) (v : string) : string :=
  let v := if lowercase p then JS.toLowerCase v else v in
  if trim p then JS.trim v else v.

Definition castString (p : SchemaString) (v : Value) : Value :=
  option_map (applySetters p) v.

(** The [required] validator of a String path: a non-empty string. *)
Definition checkRequired (p : SchemaString) (v : Value) : bool :=
  if required p then
    match v with
    | Some s => negb (s =? "")
    | None => false
    end
  else true.

(** The stored form of an e-mail: what the setters of path email return. *)
Definition normalizeEmail (e : string) : string :=
  applySetters userSchema.email e.

Definition hexDigit (c : ascii) : option N :=
  let n := N_of_ascii c in
  if ((48 <=? n) && (n <=? 57))%N then Some (n - 48)%N
  else if ((97 <=? n) && (n <=? 102))%N then Some (n - 87)%N
  else if ((65 <=? n) && (n <=? 70))%N then Some (n - 55)%N
  else None.

Fixpoint parseHex (acc : N) (s : string) : option N :=
  match s with
  | EmptyString => Some acc
  | String c s' =>
      match hexDigit c with
      | Some d => parseHex (16 * acc + d)%N s'
      | None => None
      end
  end.

(** Casting a string to an ObjectId: the 24 hexadecimal digits of the
    identifier.  This is the form every version of the driver accepts, and
    the form the service hands out.  A string of 12 code units is taken
    as 12 raw bytes by some versions of the driver and refused by others;
    the model refuses it, and what is proved about refused identifiers
    leaves the strings of length 12 out. *)
Definition castObjectId (id : string) : option ObjectId :=
  if (String.length id =? 24)%nat then parseHex 0 id else None.

Inductive MongooseError : Type :=
| CastError (kind value path : string)
| ValidationError (paths : list string)
| DuplicateKeyError (index value : string).

(** A settled promise. *)
Inductive Settled (X : Type) : Type :=
| Fulfilled (x : X)
| Rejected (error : MongooseError).
Arguments Fulfilled {X} x.
Arguments Rejected {X} error.

(** The calls server.js makes on the model. *)
Inductive ModelCall : Type -> Type :=
| findOne (email : Value) : ModelCall (option User)
| findOneNe (email : Value) (id : string) : ModelCall (option User)
| save (name surname email jobTitle : Value) : ModelCall User
| find : ModelCall (list User)
| findById (id : string) : ModelCall (option User)
| findByIdAndUpdate (id : string) (name surname email jobTitle : Value)
    : ModelCall (option User)
| findByIdAndDelete (id : string) : ModelCall (option User).

(** The collection, the next identifier the driver hands out, and the
    clock the timestamps are read from.  The order of the list and the
    counter stand for what the store and the driver choose; what is
    proved about listing and about updated or deleted collections speaks
    of the records they hold, not of their order. *)
Record Store := mkStore {
  crud : list User;
  nextId : N;
  now : N
}.

Definition emptyStore (t : N) : Store :=
  {| crud := []; nextId := 0%N; now := t |}.

Definition withDocs (st : Store) (docs : list User) : Store :=
  {| crud := docs; nextId := nextId st; now := now st |}.

Definition hasId (oid : ObjectId) (u : User) : bool := (_id u =? oid)%N.

Definition hasEmail (e : Value) (u : User) : bool :=
  match e with
  | Some e' => email u =? e'
  | None => false
  end.

(** The paths of a cast document that fail validation. *)
Definition invalidPaths (n s e j : Value) : list string :=
  (if checkRequired userSchema.name n then [] else ["name"])
  ++ (if checkRequired userSchema.surname s then [] else ["surname"])
  ++ (if checkRequired userSchema.email e then [] else ["email"])
  ++ (if checkRequired userSchema.jobTitle j then [] else ["jobTitle"]).

(** Cast the four paths, then validate them. *)
Definition castAndValidate (n s e j : Value)
  : Settled (string * string * string * string) :=
  let n' := castString userSchema.name n in
  let s' := castString userSchema.surname s in
  let e' := castString userSchema.email e in
  let j' := castString userSchema.jobTitle j in
  match invalidPaths n' s' e' j', n', s', e', j' with
  | [], Some vn, Some vs, Some ve, Some vj => Fulfilled (vn, vs, ve, vj)
  | paths, _, _, _, _ => Rejected (ValidationError paths)
  end.

(** The error of update validators lists the failing paths in the
    reverse order. *)
Definition updateError (error : MongooseError) : MongooseError :=
  match error with
  | ValidationError paths => ValidationError (rev paths)
  | _ => error
  end.

(** The unique index email_1 that [unique: true] asks for: is the key
    taken by a document other than the one being written? *)
Definition duplicateKey (e : string) (self : option ObjectId) (docs : list User)
  : bool :=
  unique userSchema.email &&
  existsb (fun u =>
             (email u =? e)
             && match self with
                | Some oid => negb (hasId oid u)
                | None => true
                end) docs.

(** findOneAndUpdate and findOneAndDelete write the first match only. *)
Fixpoint replaceFirst (p : User -> bool) (doc : User) (docs : list User)
  : list User :=
  match docs with
  | [] => []
  | u :: us => if p u then doc :: us else u :: replaceFirst p doc us
  end.

Fixpoint removeFirst (p : User -> bool) (docs : list User) : list User :=
  match docs with
  | [] => []
  | u :: us => if p u then us else u :: removeFirst p us
  end.

Definition castError (id : string) : MongooseError :=
  CastError "ObjectId" id "_id".

Definition exec {X : Type} (call : ModelCall X) (st : Store)
  : Settled X * Store :=
  match call in ModelCall T return Settled T * Store with
  | findOne e =>
      (Fulfilled (List.find (hasEmail (castString userSchema.email e)) (crud st)),
       st)
  | findOneNe e id =>
      match castObjectId id with
      | None => (Rejected (castError id), st)
      | Some oid =>
          (Fulfilled
             (List.find (fun u => hasEmail (castString userSchema.email e) u
                                  && negb (hasId oid u)) (crud st)),
           st)
      end
  | save n s e j =>
      match castAndValidate n s e j with
      | Rejected err => (Rejected err, st)
      | Fulfilled (vn, vs, ve, vj) =>
          if duplicateKey ve None (crud st)
          then (Rejected (DuplicateKeyError "email_1" ve), st)
          else
            let doc := {| _id := nextId st; name := vn; surname := vs;
                          email := ve; jobTitle := vj;
                          createdAt := now st; updatedAt := now st |} in
            (Fulfilled doc,
             {| crud := crud st ++ [doc]; nextId := N.succ (nextId st);
                now := now st |})
      end
  | find => (Fulfilled (crud st), st)
  | findById id =>
      match castObjectId id with
      | None => (Rejected (castError id), st)
      | Some oid => (Fulfilled (List.find (hasId oid) (crud st)), st)
      end
  | findByIdAndUpdate id n s e j =>
      match castObjectId id with
      | None => (Rejected (castError id), st)
      | Some oid =>
          match castAndValidate n s e j with
          | Rejected err => (Rejected (updateError err), st)
          | Fulfilled (vn, vs, ve, vj) =>
              match List.find (hasId oid) (crud st) with
              | None => (Fulfilled None, st)
              | Some old =>
                  if duplicateKey ve (Some oid) (crud st)
                  then (Rejected (DuplicateKeyError "email_1" ve), st)
                  else
                    let doc := {| _id := _id old; name := vn; surname := vs;
                                  email := ve; jobTitle := vj;
                                  createdAt := createdAt old;
                                  updatedAt := now st |} in
                    (Fulfilled (Some doc),
                     withDocs st (replaceFirst (hasId oid) doc (crud st)))
              end
          end
      end
  | findByIdAndDelete id =>
      match castObjectId id with
      | None => (Rejected (castError id), st)
      | Some oid =>
          match List.find (hasId oid) (crud st) with
          | None => (Fulfilled None, st)
          | Some old =>
              (Fulfilled (Some old),
               withDocs st (removeFirst (hasId oid) (crud st)))
          end
      end
  end.

(** ** express-validator: the chains of server.js and [validationResult] *)

(** [req.body]: the value under each key, [None] when the key is absent. *)
Definition Body := string -> Value.

Definition mkBody (n s e j : Value) : Body :=
  fun key =>
    if key =? "name" then n
    else if key =? "surname" then s
    else if key =? "email" then e
    else if key =? "jobTitle" then j
    else None.

Inductive StandardValidator : Type :=
| notEmpty
| isEmail.

(** [body(param).<validator>().withMessage(msg)] *)
Record Chain := mkChain {
  param : string;
  validator : StandardValidator;
  msg : string
}.

(** One entry of [errors.array()]. *)
Record FieldError := mkFieldError {
  errValue : Value;
  errMsg : string;
  errParam : string;
  errLocation : string
}.

(** The string a standard validator is run on. *)
Definition toString (v : Value) : string :=
  match v with
  | Some s => s
  | None => ""
  end.

Inductive Json : Type :=
| JErrors (errors : list FieldError)
| JMessage (message : string)
| JServerError (message : string) (error : MongooseError)
| JUser (user : User)
| JUsers (users : list User).

Record Response := mkResponse {
  status : nat;
  json : Json
}.

(** A handler between two awaits: it is done, or it awaits a model call
    and continues with the settled promise. *)
Inductive Async (R : Type) : Type :=
| Done (r : R)
| Await {X : Type} (call : ModelCall X) (k : Settled X -> Async R).
Arguments Done {R} r.
Arguments Await {R X} call k.

(** [await call] inside [try { ... } catch (error) { handler }] *)
Definition awaitTry {R X : Type} (handler : MongooseError -> Async R)
  (call : ModelCall X) (k : X -> Async R) : Async R :=
  Await call (fun settled =>
                match settled with
                | Fulfilled x => k x
                | Rejected error => handler error
                end).

Notation "x <- 'await' call 'catch' handler ;; k" :=
  (awaitTry handler call (fun x => k))
  (at level 61, call at next level, handler at next level,
   right associativity).

Definition serverError (error : MongooseError) : Async Response :=
  Done {| status := 500; json := JServerError "Server error" error |}.

Section Server.

(** The e-mail validator the chains call (validator.js [isEmail]). *)
Variable isEmailValidator : string -> bool.

Definition passes (v : StandardValidator) (str : string) : bool :=
  match v with
  | notEmpty => negb (Validator.isEmpty str)
  | isEmail => isEmailValidator str
  end.

(** Running one chain on the request adds at most one error. *)
Definition runChain (body : Body) (c : Chain) : list FieldError :=
  if passes (validator c) (toString (body (param c))) then []
  else [ {| errValue := body (param c); errMsg := msg c;
            errParam := param c; errLocation := "body" |} ].

(** Every chain of the route runs; the errors are collected in order. *)
Definition validationResult (chains : list Chain) (body : Body)
  : list FieldError :=
  flat_map (runChain body) chains.

Definition signUpChains : list Chain :=
  [ mkChain "name" notEmpty "Name is required.";
    mkChain "surname" notEmpty "Surname is required.";
    mkChain "email" isEmail "Valid email is required.";
    mkChain "jobTitle" notEmpty "Job title is required." ].

Definition updateChains : list Chain :=
  [ mkChain "name" notEmpty "Name is required.";
    mkChain "surname" notEmpty "Surname is required.";
    mkChain "email" isEmail "Valid email is required.";
    mkChain "jobTitle" notEmpty "Job title is required." ].

Definition isEmptyResult (errors : list FieldError) : bool :=
  match errors with
  | [] => true
  | _ :: _ => false
  end.

(** POST /sign-up *)
Definition signUp (body : Body) : Async Response :=
  let errors := validationResult signUpChains body in
  if negb (isEmptyResult errors)
  then Done {| status := 400; json := JErrors errors |}
  else
    let name := body "name" in
    let surname := body "surname" in
    let email := body "email" in
    let jobTitle := body "jobTitle" in
    existingUser <- await (findOne email) catch serverError ;;
    match existingUser with
    | Some _ =>
        Done {| status := 400;
                json := JMessage "User with this email already exists." |}
    | None =>
        savedUser <- await (save name surname email jobTitle)
                     catch serverError ;;
        Done {| status := 201; json := JUser savedUser |}
    end.

(** GET /users *)
Definition listUsers : Async Response :=
  users <- await find catch serverError ;;
  Done {| status := 200; json := JUsers users |}.

(** GET /users/:id *)
Definition getUser (id : string) : Async Response :=
  user <- await (findById id) catch serverError ;;
  match user with
  | None => Done {| status := 404; json := JMessage "User not found." |}
  | Some u => Done {| status := 200; json := JUser u |}
  end.

(** PUT /users/:id *)
Definition updateUser (id : string) (body : Body) : Async Response :=
  let errors := validationResult updateChains body in
  if negb (isEmptyResult errors)
  then Done {| status := 400; json := JErrors errors |}
  else
    let name := body "name" in
    let surname := body "surname" in
    let email := body "email" in
    let jobTitle := body "jobTitle" in
    existingUser <- await (findOneNe email id) catch serverError ;;
    match existingUser with
    | Some _ =>
        Done {| status := 400;
                json := JMessage
                          "Another user with this email already exists." |}
    | None =>
        updatedUser <- await (findByIdAndUpdate id name surname email jobTitle)
                       catch serverError ;;
        match updatedUser with
        | None => Done {| status := 404; json := JMessage "User not found." |}
        | Some u => Done {| status := 200; json := JUser u |}
        end
    end.

(** DELETE /users/:id *)
Definition deleteUser (id : string) : Async Response :=
  deletedUser <- await (findByIdAndDelete id) catch serverError ;;
  match deletedUser with
  | None => Done {| status := 404; json := JMessage "User not found." |}
  | Some _ =>
      Done {| status := 200; json := JMessage "User deleted successfully." |}
  end.

(** The requests the router dispatches to a handler that uses the model. *)
Inductive Request : Type :=
| PostSignUp (body : Body)
| GetUsers
| GetUser (id : string)
| PutUser (id : string) (body : Body)
| DeleteUser (id : string).

Definition handler (req : Request) : Async Response :=
  match req with
  | PostSignUp body => signUp body
  | GetUsers => listUsers
  | GetUser id => getUser id
  | PutUser id body => updateUser id body
  | DeleteUser id => deleteUser id
  end.

End Server.

(** ** Running handlers against the store *)

(** One request served alone: every awaited call is executed in turn. *)
Fixpoint run {R : Type} (p : Async R) (st : Store) : R * Store :=
  match p with
  | Done r => (r, st)
  | Await call k => let (settled, st') := exec call st in run (k settled) st'
  end.

(** The number of model calls a handler makes on the way. *)
Fixpoint calls {R : Type} (p : Async R) (st : Store) : nat :=
  match p with
  | Done _ => 0
  | Await call k => let (settled, st') := exec call st in S (calls (k settled) st')
  end.

(** Two requests in flight: the event loop resumes one of them at each
    turn, up to its next await. *)
Definition resume {R : Type} (p : Async R) (st : Store) : Async R * Store :=
  match p with
  | Done r => (Done r, st)
  | Await call k => let (settled, st') := exec call st in (k settled, st')
  end.

Fixpoint interleave {R : Type} (schedule : list bool) (p q : Async R)
  (st : Store) : Async R * Async R * Store :=
  match schedule with
  | [] => (p, q, st)
  | true :: rest => let (p', st') := resume p st in interleave rest p' q st'
  | false :: rest => let (q', st') := resume q st in interleave rest p q' st'
  end.

(** The service as wired in server.js. *)
Definition serve (req : Request) (st : Store) : Response * Store :=
  run (handler Validator.isEmail req) st.

(** ** Invariants of the collection *)

(** A stored e-mail is in stored form: the setters leave it alone. *)
Definition normalized (u : User) : Prop := normalizeEmail (email u) = email u.

Record store_ok (st : Store) : Prop := mkStoreOk {
  emails_normalized : Forall normalized (crud st);
  emails_unique : NoDup (map email (crud st));
  ids_unique : NoDup (map _id (crud st));
  ids_fresh : Forall (fun u => (_id u < nextId st)%N) (crud st)
}.

(** No two documents share a normalized e-mail. *)
Definition uniqueEmails (st : Store) : Prop :=
  NoDup (map (fun u => normalizeEmail (email u)) (crud st)).

(** The states the collection can be in: it starts empty, the model
    calls of any request in flight are executed one at a time, and the
    clock moves. *)
Inductive reachable : Store -> Prop :=
| reach_empty (t : N) : reachable (emptyStore t)
| reach_call (X : Type) (call : ModelCall X) (st : Store) :
    reachable st -> reachable (snd (exec call st))
| reach_clock (st : Store) (t : N) :
    reachable st ->
    reachable {| crud := crud st; nextId := nextId st; now := t |}.

(** A field violates its rule: name, surname and jobTitle when missing or
    empty, email when it is not a valid address. *)
Definition violates (isEmailValidator : string -> bool) (body : Body)
  (field : string) : bool :=
  if field =? "email" then
    match body field with
    | Some e => negb (isEmailValidator e)
    | None => true
    end
  else
    match body field with
    | Some s => s =? ""
    | None => true
    end.

Definition fields : list string := ["name"; "surname"; "email"; "jobTitle"].

(** The validator of the field's chain rejects the string it is run on. *)
Definition fails (isEmailValidator : string -> bool) (body : Body)
  (field : string) : bool :=
  negb (passes isEmailValidator
          (if field =? "email" then isEmail else notEmpty)
          (toString (body field))).

(** The body of a request that carries one, and what [validationResult]
    holds when its handler starts. *)
Definition bodyOf (req : Request) : option Body :=
  match req with
  | PostSignUp body => Some body
  | PutUser _ body => Some body
  | _ => None
  end.

Definition bodyErrors (isEmailValidator : string -> bool) (req : Request)
  : list FieldError :=
  match req with
  | PostSignUp body => validationResult isEmailValidator signUpChains body
  | PutUser _ body => validationResult isEmailValidator updateChains body
  | _ => []
  end.

Definition badRequest (errors : list FieldError) : Response :=
  {| status := 400; json := JErrors errors |}.

(** The string contains a character that is not white space. *)
Definition nonBlank (s : string) : Prop := JS.trim s <> "".

Definition conflict (message : string) : Response :=
  {| status := 400; json := JMessage message |}.

Definition failure (error : MongooseError) : Response :=
  {| status := 500; json := JServerError "Server error" error |}.

Definition notFound : Response :=
  {| status := 404; json := JMessage "User not found." |}.

(** The string neither starts nor ends with white space. *)
Definition noOuterSpace (s : string) : Prop :=
  (forall c, Validator.firstChar s = Some c -> JS.isWhiteSpace c = false)
  /\ (forall c, Validator.lastChar s = Some c -> JS.isWhiteSpace c = false).

(** [stored] is [input] with the white space in front and behind taken
    away, and nothing else. *)
Definition trimmedFrom (input stored : string) : Prop :=
  (exists front behind,
      input = (front ++ stored ++ behind)%string
      /\ JS.everyChar JS.isWhiteSpace front = true
      /\ JS.everyChar JS.isWhiteSpace behind = true)
  /\ noOuterSpace stored.

(** A string of white space only. *)
Definition whiteSpaceOnly (s : string) : Prop :=
  JS.everyChar JS.isWhiteSpace s = true.

(** A capital letter: A-Z, or a Latin-1 capital. *)
Definition isUpperCase (c : ascii) : bool :=
  let n := N_of_ascii c in
  (((65 <=? n) && (n <=? 90))
   || ((192 <=? n) && (n <=? 214)) || ((216 <=? n) && (n <=? 222)))%N.

Definition noUpperCase (s : string) : Prop :=
  JS.everyChar (fun c => negb (isUpperCase c)) s = true.

(** [b] is [a] with each capital letter replaced by its small letter,
    32 code units further. *)
Fixpoint lowerCased (a b : string) : Prop :=
  match a, b with
  | EmptyString, EmptyString => True
  | String x a', String y b' =>
      (if isUpperCase x then N_of_ascii y = (N_of_ascii x + 32)%N else y = x)
      /\ lowerCased a' b'
  | _, _ => False
  end.

(** A stored record conforms to the schema: the required paths are not
    empty, no path starts or ends with white space and the e-mail has no
    capital letter. *)
Definition conforms (u : User) : Prop :=
  name u <> "" /\ noOuterSpace (name u)
  /\ surname u <> "" /\ noOuterSpace (surname u)
  /\ email u <> "" /\ noOuterSpace (email u) /\ noUpperCase (email u)
  /\ jobTitle u <> "" /\ noOuterSpace (jobTitle u).

(** The message each chain of server.js attaches to its field. *)
Definition fieldMessages : list (string * string) :=
  [ ("name", "Name is required.");
    ("surname", "Surname is required.");
    ("email", "Valid email is required.");
    ("jobTitle", "Job title is required.") ].

Definition ok (u : User) : Response := {| status := 200; json := JUser u |}.

Definition created (u : User) : Response := {| status := 201; json := JUser u |}.

Definition deleted : Response :=
  {| status := 200; json := JMessage "User deleted successfully." |}.

(** The two handlers that only read. *)
Definition readOnly (req : Request) : bool :=
  match req with
  | GetUsers | GetUser _ => true
  | _ => false
  end.

(** The record PUT /users/:id writes over [old]. *)
Definition updatedDoc (old : User) (n s e j : string) (t : N) : User :=
  {| _id := _id old; name := JS.trim n; surname := JS.trim s;
     email := JS.trim (JS.toLowerCase e); jobTitle := JS.trim j;
     createdAt := createdAt old; updatedAt := t |}.

(** ** Sample requests and stores *)

Module Sample.

Definition bob : Body :=
  mkBody (Some "Bob") (Some "Lee") (Some "bob@x.io") (Some "dev").

(** The same address in another case. *)
Definition shout : Body :=
  mkBody (Some "Al") (Some "Ray") (Some "BOB@X.io") (Some "ops").

(** A name with white space in front. *)
Definition padded : Body :=
  mkBody (Some " Bob") (Some "Lee") (Some "bob@x.io") (Some "dev").

Definition ann : Body :=
  mkBody (Some " Ann ") (Some "Kay") (Some " ann@x.io") (Some "qa").

(** A body with padding and capitals in its fields. *)
Definition ann' : Body :=
  mkBody (Some " Ann ") (Some "Kay") (Some "Ann@X.io") (Some "qa").

(** A name and a job title of white space only. *)
Definition blanks : Body :=
  mkBody (Some " ") (Some "Lee") (Some "lee@x.io") (Some "  ").

Definition bobRecord : User :=
  {| _id := 0%N; name := "Bob"; surname := "Lee"; email := "bob@x.io";
     jobTitle := "dev"; createdAt := 5%N; updatedAt := 5%N |}.

Definition oneUser : Store :=
  {| crud := [bobRecord]; nextId := 1%N; now := 5%N |}.

(** A store whose only record has another address. *)
Definition oneUser' : Store :=
  {| crud := [ {| _id := 0%N; name := "Eve"; surname := "Orr";
                  email := "eve@x.io"; jobTitle := "pm";
                  createdAt := 5%N; updatedAt := 5%N |} ];
     nextId := 1%N; now := 7%N |}.

Definition eveRecord : User :=
  {| _id := 1%N; name := "Eve"; surname := "Orr"; email := "eve@x.io";
     jobTitle := "pm"; createdAt := 5%N; updatedAt := 5%N |}.

(** The record a create with [ann'] adds to [oneUser]. *)
Definition annRecord : User :=
  {| _id := 1%N; name := "Ann"; surname := "Kay"; email := "ann@x.io";
     jobTitle := "qa"; createdAt := 5%N; updatedAt := 5%N |}.

Definition twoUsers : Store :=
  {| crud := [bobRecord; eveRecord]; nextId := 2%N; now := 5%N |}.

(** Identifiers: the one of [bobRecord], a well-formed one that matches
    no record, and a malformed one. *)
Definition id0 : string := "000000000000000000000000".
Definition id1 : string := "000000000000000000000001".
Definition malformed : string := "abc".

End Sample.

(** * Properties *)

(** ** Strings *)

Section StringFacts.

Import JS.

Lemma trimEnd_empty_iff (s : string) :
  trimEnd s = "" <-> everyChar isWhiteSpace s = true.
Proof.
  induction s as [|c s IH]; simpl.
  - tauto.
  - destruct (trimEnd s) eqn:E, (isWhiteSpace c) eqn:W; simpl;
      split; intro H; try discriminate; try reflexivity.
    + now apply IH.
    + apply IH in H. discriminate.
Qed.

Lemma everyChar_trimStart (s : string) :
  everyChar isWhiteSpace (trimStart s) = everyChar isWhiteSpace s.
Proof.
  induction s as [|c s IH]; simpl; [reflexivity|].
  destruct (isWhiteSpace c) eqn:W; simpl; [exact IH | now rewrite W].
Qed.

Lemma trim_empty_iff (s : string) :
  trim s = "" <-> everyChar isWhiteSpace s = true.
Proof.
  unfold trim. rewrite trimEnd_empty_iff, everyChar_trimStart. tauto.
Qed.

Lemma trimEnd_idempotent (s : string) : trimEnd (trimEnd s) = trimEnd s.
Proof.
  induction s as [|c s IH]; simpl; [reflexivity|].
  destruct (trimEnd s) as [|d t] eqn:E.
  - destruct (isWhiteSpace c) eqn:W; simpl; [reflexivity | now rewrite W].
  - simpl in *. rewrite IH. reflexivity.
Qed.

(** A string that does not start with white space keeps its first
    character under [trimEnd]. *)
Lemma trimStart_trimEnd (s : string) :
  trimStart s = s -> trimStart (trimEnd s) = trimEnd s.
Proof.
  destruct s as [|c s]; simpl; [reflexivity|].
  destruct (isWhiteSpace c) eqn:W.
  - intro H. exfalso.
    assert (L : String.length (trimStart s) <= String.length s).
    { clear. induction s as [|d s IH]; simpl; [lia|].
      destruct (isWhiteSpace d); simpl; lia. }
    rewrite H in L. simpl in L. lia.
  - intros _. destruct (trimEnd s); simpl; now rewrite W.
Qed.

Lemma trimStart_idempotent (s : string) : trimStart (trimStart s) = trimStart s.
Proof.
  induction s as [|c s IH]; simpl; [reflexivity|].
  destruct (isWhiteSpace c) eqn:W; [exact IH | simpl; now rewrite W].
Qed.

Lemma trim_idempotent (s : string) : trim (trim s) = trim s.
Proof.
  unfold trim.
  rewrite (trimStart_trimEnd (trimStart s) (trimStart_idempotent s)).
  apply trimEnd_idempotent.
Qed.

Section Mapped.

Variable f : ascii -> ascii.
Hypothesis f_keeps_space : forall c, isWhiteSpace (f c) = isWhiteSpace c.

Lemma trimStart_mapChars (s : string) :
  trimStart (mapChars f s) = mapChars f (trimStart s).
Proof.
  induction s as [|c s IH]; simpl; [reflexivity|].
  rewrite f_keeps_space. destruct (isWhiteSpace c); [exact IH | reflexivity].
Qed.

Lemma trimEnd_mapChars (s : string) :
  trimEnd (mapChars f s) = mapChars f (trimEnd s).
Proof.
  induction s as [|c s IH]; simpl; [reflexivity|].
  rewrite IH, f_keeps_space.
  destruct (trimEnd s); simpl; [destruct (isWhiteSpace c)|]; reflexivity.
Qed.

Lemma trim_mapChars (s : string) :
  trim (mapChars f s) = mapChars f (trim s).
Proof. unfold trim. now rewrite trimStart_mapChars, trimEnd_mapChars. Qed.

End Mapped.

Lemma lowerChar_keeps_space (c : ascii) :
  isWhiteSpace (lowerChar c) = isWhiteSpace c.
Proof. destruct c as [[] [] [] [] [] [] [] []]; reflexivity. Qed.

Lemma lowerChar_idempotent (c : ascii) : lowerChar (lowerChar c) = lowerChar c.
Proof. destruct c as [[] [] [] [] [] [] [] []]; reflexivity. Qed.

Lemma toLowerCase_idempotent (s : string) :
  toLowerCase (toLowerCase s) = toLowerCase s.
Proof.
  unfold toLowerCase. induction s as [|c s IH]; simpl; [reflexivity|].
  now rewrite lowerChar_idempotent, IH.
Qed.

(** Lower-casing and trimming commute. *)
Lemma trim_toLowerCase (s : string) :
  trim (toLowerCase s) = toLowerCase (trim s).
Proof. apply trim_mapChars, lowerChar_keeps_space. Qed.

Lemma mapChars_empty (f : ascii -> ascii) (s : string) :
  mapChars f s = "" -> s = "".
Proof. destruct s; simpl; [reflexivity | discriminate]. Qed.

End StringFacts.

Lemma normalizeEmail_unfold (e : string) :
  normalizeEmail e = JS.trim (JS.toLowerCase e).
Proof. reflexivity. Qed.

Lemma normalizeEmail_idempotent (e : string) :
  normalizeEmail (normalizeEmail e) = normalizeEmail e.
Proof.
  rewrite !normalizeEmail_unfold.
  rewrite <- (trim_toLowerCase (JS.toLowerCase e)), toLowerCase_idempotent.
  apply trim_idempotent.
Qed.

Lemma normalizeEmail_nonBlank (e : string) :
  nonBlank e -> normalizeEmail e <> "".
Proof.
  unfold nonBlank. rewrite normalizeEmail_unfold, trim_toLowerCase.
  intros H E. apply H. now apply mapChars_empty in E.
Qed.

(** ** The model calls *)

Local Open Scope list_scope.

Lemma find_split (p : User -> bool) (docs : list User) (old : User) :
  List.find p docs = Some old ->
  exists before after,
    docs = before ++ old :: after
    /\ p old = true
    /\ (forall doc, replaceFirst p doc docs = before ++ doc :: after)
    /\ removeFirst p docs = before ++ after.
Proof.
  induction docs as [|u us IH]; simpl; [discriminate|].
  destruct (p u) eqn:P.
  - intros [= ->]. exists [], us. auto.
  - intros H. destruct (IH H) as (before & after & -> & Pold & Hrep & Hrem).
    exists (u :: before), after. simpl.
    repeat split; auto.
    + intros doc. now rewrite Hrep.
    + now rewrite Hrem.
Qed.

Lemma find_none (p : User -> bool) (docs : list User) :
  List.find p docs = None <-> (forall u, In u docs -> p u = false).
Proof.
  split.
  - intros H u Hin. exact (find_none p docs H u Hin).
  - induction docs as [|u us IH]; simpl; [reflexivity|].
    intros H. rewrite (H u (or_introl eq_refl)). apply IH. auto.
Qed.

Lemma duplicateKey_false (e : string) (self : option ObjectId)
  (docs : list User) :
  duplicateKey e self docs = false ->
  forall u, In u docs -> email u = e ->
            exists oid, self = Some oid /\ _id u = oid.
Proof.
  unfold duplicateKey. cbn [unique userSchema.email andb]. intros H u Hin He.
  assert (Hu := proj2 (Bool.not_true_iff_false _) H). clear H.
  destruct self as [oid|].
  - exists oid. split; [reflexivity|].
    destruct (N.eq_dec (_id u) oid) as [|Hne]; [assumption|].
    exfalso. apply Hu, existsb_exists. exists u. split; [assumption|].
    rewrite He, String.eqb_refl. unfold hasId.
    now apply N.eqb_neq in Hne as ->.
  - exfalso. apply Hu, existsb_exists. exists u. split; [assumption|].
    now rewrite He, String.eqb_refl.
Qed.

(** What a document that passed casting and validation looks like. *)
Lemma castAndValidate_fulfilled (n s e j : Value) (vn vs ve vj : string) :
  castAndValidate n s e j = Fulfilled (vn, vs, ve, vj) ->
  (exists n0, n = Some n0 /\ vn = JS.trim n0 /\ vn <> "")
  /\ (exists s0, s = Some s0 /\ vs = JS.trim s0 /\ vs <> "")
  /\ (exists e0, e = Some e0 /\ ve = normalizeEmail e0 /\ ve <> "")
  /\ (exists j0, j = Some j0 /\ vj = JS.trim j0 /\ vj <> "").
Proof.
  unfold castAndValidate, invalidPaths, checkRequired, castString.
  destruct n as [n0|], s as [s0|], e as [e0|], j as [j0|]; simpl;
    repeat match goal with
      | |- context [(?x =? "")%string] =>
          let E := fresh "E" in destruct (x =? "")%string eqn:E; simpl
      end;
    try discriminate.
  intros [= <- <- <- <-].
  repeat match goal with
    | E : (_ =? "")%string = false |- _ => apply String.eqb_neq in E
    end.
  repeat split; eexists; repeat split; eauto.
Qed.

Lemma castAndValidate_nonBlank (n s e j : string) :
  nonBlank n -> nonBlank s -> normalizeEmail e <> "" -> nonBlank j ->
  castAndValidate (Some n) (Some s) (Some e) (Some j)
  = Fulfilled (JS.trim n, JS.trim s, normalizeEmail e, JS.trim j).
Proof.
  unfold nonBlank, castAndValidate, invalidPaths, checkRequired, castString.
  rewrite normalizeEmail_unfold.
  cbv [applySetters userSchema.name userSchema.surname userSchema.email
       userSchema.jobTitle lowercase trim required option_map].
  intros Hn Hs He Hj.
  apply String.eqb_neq in Hn, Hs, He, Hj.
  now rewrite Hn, Hs, He, Hj.
Qed.

Lemma castAndValidate_blank_name (n : string) (s e j : Value) :
  JS.trim n = "" ->
  exists paths, castAndValidate (Some n) s e j = Rejected (ValidationError paths).
Proof.
  intros Hn. unfold castAndValidate, invalidPaths.
  change (checkRequired userSchema.name (castString userSchema.name (Some n)))
    with (negb (JS.trim n =? "")).
  rewrite Hn. simpl.
  destruct (castString _ s), (castString _ e), (castString _ j); eauto.
Qed.

Lemma normalized_map_email (docs : list User) :
  Forall normalized docs ->
  map (fun u => normalizeEmail (email u)) docs = map email docs.
Proof.
  induction 1 as [|u us Hu _ IH]; simpl; [reflexivity|].
  now rewrite Hu, IH.
Qed.

Lemma store_ok_uniqueEmails (st : Store) : store_ok st -> uniqueEmails st.
Proof.
  intros [Hn He _ _]. unfold uniqueEmails.
  now rewrite normalized_map_email.
Qed.

Lemma emptyStore_ok (t : N) : store_ok (emptyStore t).
Proof. split; simpl; constructor. Qed.

Lemma store_ok_clock (st : Store) (t : N) :
  store_ok st -> store_ok {| crud := crud st; nextId := nextId st; now := t |}.
Proof. intros [? ? ? ?]. split; assumption. Qed.

Lemma store_ok_save (st : Store) (vn vs ve vj : string) :
  store_ok st ->
  normalizeEmail ve = ve ->
  duplicateKey ve None (crud st) = false ->
  store_ok {| crud := crud st
                      ++ [ {| _id := nextId st; name := vn; surname := vs;
                              email := ve; jobTitle := vj;
                              createdAt := now st; updatedAt := now st |} ];
              nextId := N.succ (nextId st); now := now st |}.
Proof.
  intros [Hn He Hi Hf] Hve Hdup. split; simpl.
  - apply Forall_app. split; [assumption|]. now constructor.
  - rewrite map_app. simpl.
    apply (NoDup_Add (a := ve) (l := map email (crud st))).
    + rewrite <- (app_nil_r (map email (crud st))) at 1. apply Add_app.
    + split; [assumption|]. intros Hin.
      apply in_map_iff in Hin as (u & Hu & Hin).
      destruct (duplicateKey_false _ _ _ Hdup u Hin Hu) as (oid & [=] & _).
  - rewrite map_app. simpl.
    apply (NoDup_Add (a := nextId st) (l := map _id (crud st))).
    + rewrite <- (app_nil_r (map _id (crud st))) at 1. apply Add_app.
    + split; [assumption|]. intros Hin.
      apply in_map_iff in Hin as (u & Hu & Hin).
      rewrite Forall_forall in Hf. specialize (Hf u Hin). lia.
  - apply Forall_app. split.
    + eapply Forall_impl; [|exact Hf]. simpl. intros u Hu. lia.
    + constructor; [simpl; lia | constructor].
Qed.

Lemma Forall_replace_middle (P : User -> Prop) (before after : list User)
  (old doc : User) :
  Forall P (before ++ old :: after) -> P doc ->
  Forall P (before ++ doc :: after).
Proof.
  rewrite !Forall_app, !Forall_cons_iff. tauto.
Qed.

Lemma Forall_remove_middle (P : User -> Prop) (before after : list User)
  (old : User) :
  Forall P (before ++ old :: after) -> Forall P (before ++ after).
Proof.
  rewrite !Forall_app, !Forall_cons_iff. tauto.
Qed.

Lemma store_ok_update (st : Store) (before after : list User)
  (old doc : User) (oid : ObjectId) :
  store_ok st ->
  crud st = before ++ old :: after ->
  hasId oid old = true ->
  _id doc = _id old ->
  normalized doc ->
  duplicateKey (email doc) (Some oid) (crud st) = false ->
  store_ok (withDocs st (before ++ doc :: after)).
Proof.
  intros [Hn He Hi Hf] Hdocs Hold Hid Hdoc Hdup.
  rewrite Hdocs in Hn, He, Hi, Hf.
  unfold hasId in Hold. apply N.eqb_eq in Hold.
  split; simpl.
  - eapply Forall_replace_middle; eauto.
  - rewrite map_app in *. simpl in *.
    apply (NoDup_Add (a := email doc)
             (l := map email before ++ map email after)); [apply Add_app|].
    split; [eapply NoDup_remove_1; eauto|].
    rewrite <- map_app. intros Hin.
    apply in_map_iff in Hin as (u & Hu & Hin).
    assert (Hin' : In u (crud st)).
    { rewrite Hdocs. apply in_app_or in Hin. apply in_or_app.
      destruct Hin; [left | right; right]; assumption. }
    destruct (duplicateKey_false _ _ _ Hdup u Hin' Hu) as (o & [= <-] & Hu').
    apply NoDup_remove_2 in Hi. apply Hi.
    rewrite <- map_app. apply in_map_iff. exists u.
    split; [congruence | assumption].
  - rewrite map_app in *. simpl in *. now rewrite Hid.
  - eapply Forall_replace_middle; eauto. simpl. rewrite Hid.
    apply Forall_app in Hf as [_ Hf]. now inversion Hf.
Qed.

Lemma store_ok_delete (st : Store) (before after : list User) (old : User) :
  store_ok st ->
  crud st = before ++ old :: after ->
  store_ok (withDocs st (before ++ after)).
Proof.
  intros [Hn He Hi Hf] Hdocs. rewrite Hdocs in Hn, He, Hi, Hf.
  split; simpl.
  - eapply Forall_remove_middle; eauto.
  - rewrite map_app in *. simpl in *. eapply NoDup_remove_1; eauto.
  - rewrite map_app in *. simpl in *. eapply NoDup_remove_1; eauto.
  - eapply Forall_remove_middle; eauto.
Qed.

(** Every model call keeps the collection well formed: the unique index
    is enforced by the call that writes. *)
Lemma exec_store_ok (X : Type) (call : ModelCall X) (st : Store) :
  store_ok st -> store_ok (snd (exec call st)).
Proof.
  intros Hok. destruct call as [e | e id | n s e j | | id | id n s e j | id];
    simpl; try assumption.
  - destruct (castObjectId id); assumption.
  - destruct (castAndValidate n s e j) as [[[[vn vs] ve] vj]|err] eqn:Hcast;
      [|assumption].
    destruct (duplicateKey ve None (crud st)) eqn:Hdup; [assumption|].
    simpl. apply store_ok_save; try assumption.
    apply castAndValidate_fulfilled in Hcast
      as (_ & _ & (e0 & _ & -> & _) & _).
    apply normalizeEmail_idempotent.
  - destruct (castObjectId id); assumption.
  - destruct (castObjectId id) as [oid|]; [|assumption].
    destruct (castAndValidate n s e j) as [[[[vn vs] ve] vj]|err] eqn:Hcast;
      [|assumption].
    destruct (List.find (hasId oid) (crud st)) as [old|] eqn:Hfind;
      [|assumption].
    destruct (duplicateKey ve (Some oid) (crud st)) eqn:Hdup; [assumption|].
    simpl.
    destruct (find_split _ _ _ Hfind) as (before & after & Hd & Hp & Hrep & _).
    rewrite Hrep. eapply store_ok_update; eauto.
    apply castAndValidate_fulfilled in Hcast
      as (_ & _ & (e0 & _ & -> & _) & _).
    apply normalizeEmail_idempotent.
  - destruct (castObjectId id) as [oid|]; [|assumption].
    destruct (List.find (hasId oid) (crud st)) as [old|] eqn:Hfind;
      [|assumption].
    simpl.
    destruct (find_split _ _ _ Hfind) as (before & after & Hd & _ & _ & Hrem).
    rewrite Hrem. eapply store_ok_delete; eauto.
Qed.

Lemma reachable_store_ok (st : Store) : reachable st -> store_ok st.
Proof.
  induction 1 as [t | X call st _ IH | st t _ IH].
  - apply emptyStore_ok.
  - now apply exec_store_ok.
  - now apply store_ok_clock.
Qed.

(** Serving a request alone is a sequence of model calls. *)
Lemma run_reachable (R : Type) (p : Async R) :
  forall st, reachable st -> reachable (snd (run p st)).
Proof.
  induction p as [r | X call k IH]; intros st Hst; simpl; [assumption|].
  destruct (exec call st) as [settled st'] eqn:E.
  apply IH. change st' with (snd (settled, st')). rewrite <- E.
  now apply reach_call.
Qed.

Lemma run_store_ok (R : Type) (p : Async R) :
  forall st, store_ok st -> store_ok (snd (run p st)).
Proof.
  induction p as [r | X call k IH]; intros st Hst; simpl; [assumption|].
  destruct (exec call st) as [settled st'] eqn:E.
  apply IH. change st' with (snd (settled, st')). rewrite <- E.
  now apply exec_store_ok.
Qed.

(** ** The e-mail validator *)

Lemma everyChar_split (p : ascii -> bool) (sep : ascii) (s : string) :
  JS.everyChar p s = true ->
  Forall (fun part => JS.everyChar p part = true) (JS.split sep s).
Proof.
  induction s as [|c s IH]; simpl.
  - intros _. repeat constructor.
  - intros H. apply andb_true_iff in H as [Hc Hs]. specialize (IH Hs).
    destruct (JS.split sep s) as [|part parts]; [repeat constructor|].
    inversion IH; subst.
    destruct (Ascii.eqb c sep); repeat constructor; simpl; auto.
    now rewrite Hc.
Qed.

Lemma Forall_last (A : Type) (P : A -> Prop) (l : list A) (d : A) :
  Forall P l -> P d -> P (last l d).
Proof.
  induction 1 as [|x l Hx Hl IH]; simpl; [auto|].
  intros Hd. destruct l; auto.
Qed.

Lemma everyChar_both (p : ascii -> bool) (s : string) :
  JS.everyChar p s = true ->
  JS.everyChar (fun c => negb (p c)) s = true ->
  s = "".
Proof.
  destruct s as [|c s]; simpl; [reflexivity|].
  destruct (p c); simpl; discriminate.
Qed.

Lemma tldPattern_nonempty (tld : string) :
  Validator.tldPattern tld = true -> tld <> "".
Proof. destruct tld; [discriminate | discriminate]. Qed.

(** An address validator.js accepts contains a character that is not
    white space: its top-level domain has none. *)
Lemma isEmail_nonBlank (s : string) :
  Validator.isEmail s = true -> nonBlank s.
Proof.
  unfold nonBlank. intros Hv Hblank. apply trim_empty_iff in Hblank.
  unfold Validator.isEmail in Hv.
  destruct (254 <? String.length s)%nat; [discriminate|].
  destruct (negb _); [discriminate|].
  destruct (Validator.isFQDN (last (JS.split "@" s) "")) eqn:Hfqdn;
    [clear Hv | discriminate].
  assert (Hdom : JS.everyChar JS.isWhiteSpace (last (JS.split "@" s) "") = true).
  { apply Forall_last with (P := fun part => JS.everyChar JS.isWhiteSpace part = true);
      [now apply everyChar_split | reflexivity]. }
  unfold Validator.isFQDN in Hfqdn.
  set (tld := last (JS.split "." (last (JS.split "@" s) "")) "") in *.
  assert (Htld : JS.everyChar JS.isWhiteSpace tld = true).
  { apply Forall_last with (P := fun part => JS.everyChar JS.isWhiteSpace part = true);
      [now apply everyChar_split | reflexivity]. }
  repeat (apply andb_true_iff in Hfqdn as [Hfqdn ?]).
  apply (tldPattern_nonempty tld); [assumption|].
  now apply (everyChar_both JS.isWhiteSpace).
Qed.

(** ** The validation layer *)

Lemma isEmpty_eqb (s : string) : Validator.isEmpty s = (s =? "")%string.
Proof. destruct s; reflexivity. Qed.

(** The parameters of the collected errors are the fields whose chain
    fails, in the order of the chains. *)
Lemma validationResult_params (v : string -> bool) (body : Body) :
  map errParam (validationResult v signUpChains body)
  = filter (fails v body) fields.
Proof.
  unfold validationResult, signUpChains, fields, runChain, fails, passes.
  simpl.
  repeat match goal with
    | |- context [negb ?b] => destruct b; simpl
    end;
  reflexivity.
Qed.

Lemma bodyErrors_params (v : string -> bool) (req : Request) (body : Body) :
  bodyOf req = Some body ->
  map errParam (bodyErrors v req) = filter (fails v body) fields.
Proof.
  destruct req; simpl; try discriminate; intros [= ->];
    apply validationResult_params.
Qed.

Lemma violates_false_fails (v : string -> bool) (body : Body) (f : string) :
  In f fields -> violates v body f = false -> fails v body f = false.
Proof.
  unfold fields, violates, fails, passes.
  intros [<-|[<-|[<-|[<-|[]]]]]; simpl; rewrite ?isEmpty_eqb;
    destruct (body _) as [s|]; simpl; try discriminate;
    intros ->; reflexivity || (now rewrite negb_involutive).
Qed.

Lemma violates_fails (v : string -> bool) (body : Body) (f : string) :
  (forall s, v s = true -> nonBlank s) ->
  In f fields -> violates v body f = fails v body f.
Proof.
  intros Hv. assert (E : v "" = false).
  { destruct (v "") eqn:E; [|reflexivity]. now destruct (Hv "" E). }
  unfold fields, violates, fails, passes.
  intros [<-|[<-|[<-|[<-|[]]]]]; simpl; rewrite ?isEmpty_eqb;
    destruct (body _) as [s|]; simpl; rewrite ?E, ?negb_involutive;
    reflexivity.
Qed.

Lemma filter_none (A : Type) (p : A -> bool) (l : list A) :
  (forall x, In x l -> p x = false) -> filter p l = [].
Proof.
  induction l as [|x l IH]; simpl; [reflexivity|].
  intros H. rewrite (H x (or_introl eq_refl)). apply IH. auto.
Qed.

Lemma handler_invalid (v : string -> bool) (req : Request) :
  bodyErrors v req <> [] ->
  handler v req = Done (badRequest (bodyErrors v req)).
Proof.
  destruct req as [body | | id | id body | id];
    cbn [bodyErrors handler]; try congruence;
    unfold signUp, updateUser;
    destruct (validationResult v _ body); cbn [isEmptyResult negb];
    intros H; (reflexivity || now destruct H).
Qed.

Lemma handler_valid_awaits (v : string -> bool) (req : Request) :
  bodyErrors v req = [] ->
  exists (X : Type) (call : ModelCall X) (k : Settled X -> Async Response),
    handler v req = Await call k.
Proof.
  destruct req as [body | | id | id body | id];
    cbn [bodyErrors handler]; intros H;
    unfold signUp, updateUser, listUsers, getUser, deleteUser;
    rewrite ?H; cbn [isEmptyResult negb]; unfold awaitTry; eauto.
Qed.

(** C8: a create or update request that fails validation is answered
    with the 400 validation response before any model call is made: the
    handler is done at once, no call is executed and the store is the one
    it started from. *)
Theorem invalid_request_leaves_store (v : string -> bool) (req : Request)
  (st : Store) :
  bodyErrors v req <> [] ->
  handler v req = Done (badRequest (bodyErrors v req))
  /\ run (handler v req) st = (badRequest (bodyErrors v req), st)
  /\ calls (handler v req) st = 0.
Proof.
  intros H. rewrite (handler_invalid v req H). auto.
Qed.

Lemma invalid_request_leaves_store_witness :
  let req := PutUser "abc" (mkBody None (Some "Lee") (Some "x") (Some "dev")) in
  let st := emptyStore 0 in
  bodyErrors Validator.isEmail req <> []
  /\ run (handler Validator.isEmail req) st
     = (badRequest (bodyErrors Validator.isEmail req), st)
  /\ calls (handler Validator.isEmail req) st = 0.
Proof.
  assert (H : bodyErrors Validator.isEmail
                (PutUser "abc" (mkBody None (Some "Lee") (Some "x") (Some "dev")))
              <> []) by (vm_compute; discriminate).
  split; [exact H|].
  exact (proj2 (invalid_request_leaves_store Validator.isEmail _ (emptyStore 0) H)).
Defined.

(** C4: a create or update request in which one or more of name, surname,
    email, jobTitle is missing, empty or (for email) not a valid address
    is answered 400 with the collected errors, and these hold exactly one
    entry per violating field, in the order of the chains: every field is
    checked, whatever the others did. *)
Theorem validation_reports_every_field (v : string -> bool) (req : Request)
  (body : Body) (st : Store) :
  (forall s, v s = true -> nonBlank s) ->
  bodyOf req = Some body ->
  existsb (violates v body) fields = true ->
  fst (run (handler v req) st) = badRequest (bodyErrors v req)
  /\ map errParam (bodyErrors v req) = filter (violates v body) fields
  /\ NoDup (map errParam (bodyErrors v req)).
Proof.
  intros Hv Hbody Hex.
  assert (Hparams : map errParam (bodyErrors v req)
                    = filter (violates v body) fields).
  { rewrite (bodyErrors_params v req body Hbody).
    apply filter_ext_in. intros f Hf. symmetry. now apply violates_fails. }
  assert (Hne : bodyErrors v req <> []).
  { intros E. rewrite E in Hparams. cbn [map] in Hparams.
    apply existsb_exists in Hex as (f & Hf & Hviol).
    assert (Hin : In f (filter (violates v body) fields))
      by (apply filter_In; auto).
    rewrite <- Hparams in Hin. exact Hin. }
  split; [|split].
  - now rewrite (handler_invalid v req Hne).
  - exact Hparams.
  - rewrite Hparams. apply NoDup_filter.
    unfold fields. repeat constructor; simpl; intuition discriminate.
Qed.

Lemma validation_reports_every_field_witness :
  let body := mkBody None (Some "") (Some "not an address") (Some "dev") in
  let req := PostSignUp body in
  existsb (violates Validator.isEmail body) fields = true
  /\ fst (run (handler Validator.isEmail req) (emptyStore 0))
     = badRequest (bodyErrors Validator.isEmail req)
  /\ map errParam (bodyErrors Validator.isEmail req)
     = ["name"; "surname"; "email"]
  /\ NoDup (map errParam (bodyErrors Validator.isEmail req)).
Proof.
  split; [reflexivity|].
  exact (validation_reports_every_field Validator.isEmail
           (PostSignUp (mkBody None (Some "") (Some "not an address") (Some "dev")))
           _ (emptyStore 0) isEmail_nonBlank eq_refl eq_refl).
Defined.

(** C9: in a create or update request, a name, surname or jobTitle that
    is a non-empty string of white space only gets no validation error;
    when the other fields violate nothing either, no error is collected
    and the handler goes on to its first model call. *)
Theorem whitespace_only_field_passes (v : string -> bool) (req : Request)
  (body : Body) (field s : string) :
  bodyOf req = Some body ->
  In field ["name"; "surname"; "jobTitle"] ->
  body field = Some s ->
  s <> "" ->
  JS.everyChar JS.isWhiteSpace s = true ->
  ~ In field (map errParam (bodyErrors v req))
  /\ ((forall f, In f fields -> f <> field -> violates v body f = false) ->
      bodyErrors v req = []
      /\ exists (X : Type) (call : ModelCall X) (k : Settled X -> Async Response),
          handler v req = Await call k).
Proof.
  intros Hbody Hfield Hs Hne _.
  assert (Hpass : fails v body field = false).
  { unfold fails, passes. rewrite Hs.
    destruct Hfield as [<-|[<-|[<-|[]]]]; simpl; rewrite isEmpty_eqb;
      apply String.eqb_neq in Hne; now rewrite Hne. }
  rewrite (bodyErrors_params v req body Hbody).
  split.
  - intros Hin. apply filter_In in Hin as [_ Hin]. congruence.
  - intros Hothers.
    assert (Hnil : bodyErrors v req = []).
    { apply map_eq_nil with (f := errParam).
      rewrite (bodyErrors_params v req body Hbody).
      apply filter_none. intros f Hf.
      destruct (string_dec f field) as [->|Hdiff]; [exact Hpass|].
      apply violates_false_fails; auto. }
    split; [exact Hnil | now apply handler_valid_awaits].
Qed.

Lemma whitespace_only_field_passes_witness :
  let body := mkBody (Some " ") (Some "Lee") (Some "ann@example.com")
                (Some "dev") in
  let req := PostSignUp body in
  ~ In "name" (map errParam (bodyErrors Validator.isEmail req))
  /\ bodyErrors Validator.isEmail req = [].
Proof.
  destruct (whitespace_only_field_passes Validator.isEmail
              (PostSignUp (mkBody (Some " ") (Some "Lee")
                             (Some "ann@example.com") (Some "dev")))
              _ "name" " " eq_refl (or_introl eq_refl) eq_refl
              ltac:(discriminate) eq_refl) as [Hno Hrest].
  split; [exact Hno|].
  apply Hrest. intros f [<-|[<-|[<-|[<-|[]]]]] Hf;
    reflexivity || now destruct Hf.
Defined.

(** ** The handlers *)

Lemma find_some_in (p : User -> bool) (docs : list User) (u : User) :
  In u docs -> p u = true -> exists w, List.find p docs = Some w.
Proof.
  intros Hin Hp. destruct (List.find p docs) as [w|] eqn:E; [eauto|].
  rewrite (proj1 (find_none p docs) E u Hin) in Hp. discriminate.
Qed.

(** POST /sign-up once validation has passed. *)
Lemma run_signUp_valid (v : string -> bool) (body : Body) (st : Store) :
  validationResult v signUpChains body = [] ->
  run (signUp v body) st
  = match List.find (hasEmail (castString userSchema.email (body "email")))
            (crud st) with
    | Some _ => (conflict "User with this email already exists.", st)
    | None =>
        match exec (save (body "name") (body "surname") (body "email")
                      (body "jobTitle")) st with
        | (Fulfilled savedUser, st') =>
            ({| status := 201; json := JUser savedUser |}, st')
        | (Rejected error, st') => (failure error, st')
        end
    end.
Proof.
  intros H. unfold signUp. rewrite H. cbn [isEmptyResult negb].
  unfold awaitTry.
  remember (exec (save (body "name") (body "surname") (body "email")
                    (body "jobTitle")) st) as saved eqn:Hsaved.
  cbn [run]. cbn [exec].
  destruct (List.find _ (crud st)); [reflexivity|].
  cbn [run]. rewrite <- Hsaved.
  destruct saved as [[savedUser|error] st']; reflexivity.
Qed.

(** PUT /users/:id once validation has passed and the id casts. *)
Lemma run_updateUser_valid (v : string -> bool) (id : string) (oid : ObjectId)
  (body : Body) (st : Store) :
  validationResult v updateChains body = [] ->
  castObjectId id = Some oid ->
  run (updateUser v id body) st
  = match List.find (fun u => hasEmail (castString userSchema.email (body "email")) u
                              && negb (hasId oid u)) (crud st) with
    | Some _ => (conflict "Another user with this email already exists.", st)
    | None =>
        match exec (findByIdAndUpdate id (body "name") (body "surname")
                      (body "email") (body "jobTitle")) st with
        | (Fulfilled (Some u), st') => ({| status := 200; json := JUser u |}, st')
        | (Fulfilled None, st') => (notFound, st')
        | (Rejected error, st') => (failure error, st')
        end
    end.
Proof.
  intros H Hid. unfold updateUser. rewrite H. cbn [isEmptyResult negb].
  unfold awaitTry.
  remember (exec (findByIdAndUpdate id (body "name") (body "surname")
                    (body "email") (body "jobTitle")) st)
    as updated eqn:Hupdated.
  cbn [run]. cbn [exec]. rewrite Hid.
  destruct (List.find _ (crud st)); [reflexivity|].
  cbn [run]. rewrite <- Hupdated.
  destruct updated as [[[u|]|error] st']; reflexivity.
Qed.

(** C1: when a user exists whose e-mail equals the one of a create
    request up to letter case and surrounding white space, POST /sign-up
    answers 400 and the store is left as it was (no record is added). *)
Theorem duplicate_email_rejected (v : string -> bool) (st : Store)
  (body : Body) (u : User) (e : string) :
  reachable st ->
  In u (crud st) ->
  body "email" = Some e ->
  normalizeEmail e = normalizeEmail (email u) ->
  status (fst (run (signUp v body) st)) = 400
  /\ snd (run (signUp v body) st) = st.
Proof.
  intros Hst Hin He Hsame.
  destruct (validationResult v signUpChains body) as [|err errs] eqn:Hval.
  - rewrite (run_signUp_valid v body st Hval), He.
    apply reachable_store_ok in Hst. destruct Hst as [Hn _ _ _].
    rewrite Forall_forall in Hn. specialize (Hn u Hin). unfold normalized in Hn.
    destruct (find_some_in (hasEmail (castString userSchema.email (Some e)))
                (crud st) u Hin) as [w ->].
    + simpl. fold (normalizeEmail e). rewrite Hsame, Hn. apply String.eqb_refl.
    + auto.
  - assert (Hne : bodyErrors v (PostSignUp body) <> [])
      by (cbn [bodyErrors]; rewrite Hval; discriminate).
    change (signUp v body) with (handler v (PostSignUp body)).
    rewrite (handler_invalid v _ Hne). auto.
Qed.

(** C2, as the handler has it: when the pre-check of a create request
    finds no user and the save is then rejected by the unique index, the
    rejection is caught by the handler's only catch clause and answered
    500 with the generic message and the error, not 400. *)
Theorem duplicate_key_at_save_is_server_error (v : string -> bool)
  (body : Body) :
  bodyErrors v (PostSignUp body) = [] ->
  exists k k',
    signUp v body = Await (findOne (body "email")) k
    /\ k (Fulfilled None)
       = Await (save (body "name") (body "surname") (body "email")
                  (body "jobTitle")) k'
    /\ forall index value,
         k' (Rejected (DuplicateKeyError index value))
         = Done (failure (DuplicateKeyError index value)).
Proof.
  cbn [bodyErrors]. intros H. unfold signUp. rewrite H.
  cbn [isEmptyResult negb]. unfold awaitTry.
  eexists. eexists. split; [reflexivity|].
  split; [reflexivity|]. reflexivity.
Qed.

Lemma oneUser_reachable : reachable Sample.oneUser.
Proof.
  exact (reach_call _ (save (Some "Bob") (Some "Lee") (Some "bob@x.io")
                         (Some "dev")) _ (reach_empty 5)).
Qed.

Lemma twoUsers_reachable : reachable Sample.twoUsers.
Proof.
  exact (reach_call _ (save (Some "Eve") (Some "Orr") (Some "eve@x.io")
                         (Some "pm")) _ oneUser_reachable).
Qed.

Lemma duplicate_email_rejected_witness :
  normalizeEmail "BOB@X.io" = normalizeEmail (email Sample.bobRecord)
  /\ status (fst (run (signUp Validator.isEmail Sample.shout) Sample.oneUser))
     = 400
  /\ snd (run (signUp Validator.isEmail Sample.shout) Sample.oneUser)
     = Sample.oneUser.
Proof.
  split; [reflexivity|].
  apply (duplicate_email_rejected Validator.isEmail Sample.oneUser Sample.shout
           Sample.bobRecord "BOB@X.io").
  - exact oneUser_reachable.
  - left. reflexivity.
  - reflexivity.
  - reflexivity.
Defined.

Lemma duplicate_key_at_save_is_server_error_witness :
  exists k k',
    signUp Validator.isEmail Sample.bob = Await (findOne (Some "bob@x.io")) k
    /\ k (Fulfilled None)
       = Await (save (Some "Bob") (Some "Lee") (Some "bob@x.io") (Some "dev")) k'
    /\ forall index value,
         k' (Rejected (DuplicateKeyError index value))
         = Done (failure (DuplicateKeyError index value)).
Proof.
  exact (duplicate_key_at_save_is_server_error Validator.isEmail Sample.bob
           eq_refl).
Defined.

(** C2 fails on the handler: two create requests with the same address
    are in flight on an empty collection; both pre-checks run before
    either save, the second save is rejected by the unique index, and
    that request is answered 500, not 400. *)
Lemma race_at_save_counterexample :
  let '(first, second, st) :=
    interleave [true; false; false; true]
      (signUp Validator.isEmail Sample.bob)
      (signUp Validator.isEmail Sample.shout) (emptyStore 5) in
  first = Done (failure (DuplicateKeyError "email_1" "bob@x.io"))
  /\ status (failure (DuplicateKeyError "email_1" "bob@x.io")) <> 400
  /\ (exists u, second = Done {| status := 201; json := JUser u |})
  /\ List.length (crud st) = 1.
Proof.
  vm_compute. repeat split; [discriminate | eexists; reflexivity].
Qed.

(** C3, as the handlers have it: an :id that is neither 24 hexadecimal
    digits nor a string of 12 code units makes the model call reject with
    a cast error, which the catch clause answers 500; for PUT the body is
    validated first, so an invalid body is answered 400.  The store is
    untouched in every case.  (Whether a string of 12 code units casts
    depends on the version of the driver; nothing is stated about it.) *)
Theorem malformed_id_is_server_error (v : string -> bool) (id : string)
  (body : Body) (st : Store) :
  castObjectId id = None ->
  String.length id <> 12 ->
  run (getUser id) st = (failure (castError id), st)
  /\ run (deleteUser id) st = (failure (castError id), st)
  /\ run (updateUser v id body) st
     = (match bodyErrors v (PutUser id body) with
        | [] => failure (castError id)
        | errors => badRequest errors
        end, st).
Proof.
  intros Hid _. repeat split.
  - unfold getUser, awaitTry. cbn [run exec]. now rewrite Hid.
  - unfold deleteUser, awaitTry. cbn [run exec]. now rewrite Hid.
  - cbn [bodyErrors]. unfold updateUser.
    destruct (validationResult v updateChains body) as [|err errs];
      cbn [isEmptyResult negb]; [|reflexivity].
    unfold awaitTry. cbn [run exec]. now rewrite Hid.
Qed.

Lemma malformed_id_is_server_error_witness :
  castObjectId Sample.malformed = None
  /\ String.length Sample.malformed <> 12
  /\ run (getUser Sample.malformed) Sample.oneUser
     = (failure (castError Sample.malformed), Sample.oneUser)
  /\ run (deleteUser Sample.malformed) Sample.oneUser
     = (failure (castError Sample.malformed), Sample.oneUser)
  /\ run (updateUser Validator.isEmail Sample.malformed Sample.bob)
       Sample.oneUser
     = (failure (castError Sample.malformed), Sample.oneUser).
Proof.
  split; [reflexivity|]. split; [discriminate|].
  apply (malformed_id_is_server_error Validator.isEmail Sample.malformed
           Sample.bob Sample.oneUser eq_refl).
  discriminate.
Defined.

(** C3 fails on the handlers: GET, PUT and DELETE with the malformed
    identifier abc are answered 500, not 404. *)
Lemma malformed_id_counterexample :
  castObjectId Sample.malformed = None
  /\ status (fst (run (getUser Sample.malformed) Sample.oneUser)) = 500
  /\ status (fst (run (updateUser Validator.isEmail Sample.malformed Sample.bob)
                    Sample.oneUser)) = 500
  /\ status (fst (run (deleteUser Sample.malformed) Sample.oneUser)) = 500.
Proof. vm_compute. auto. Qed.

Lemma nonBlank_nonempty (s : string) : nonBlank s -> s <> "".
Proof. intros H ->. now apply H. Qed.

Lemma validation_passes (v : string -> bool) (body : Body) (n s e j : string) :
  body "name" = Some n -> body "surname" = Some s ->
  body "email" = Some e -> body "jobTitle" = Some j ->
  n <> "" -> s <> "" -> v e = true -> j <> "" ->
  validationResult v signUpChains body = [].
Proof.
  intros Bn Bs Be Bj Hn Hs He Hj.
  apply map_eq_nil with (f := errParam).
  rewrite validationResult_params. apply filter_none.
  apply String.eqb_neq in Hn, Hs, Hj.
  unfold fields, fails, passes.
  intros f [<-|[<-|[<-|[<-|[]]]]]; simpl;
    rewrite ?Bn, ?Bs, ?Be, ?Bj, ?isEmpty_eqb; simpl;
    now rewrite ?Hn, ?Hs, ?He, ?Hj.
Qed.

Lemma duplicateKey_none (e : string) (self : option ObjectId)
  (docs : list User) :
  (forall u, In u docs -> email u <> e) -> duplicateKey e self docs = false.
Proof.
  intros H. unfold duplicateKey. cbn [unique userSchema.email andb].
  destruct (existsb _ docs) eqn:Ex; [|reflexivity].
  apply existsb_exists in Ex as (u & Hin & Hu).
  apply andb_true_iff in Hu as [Hu _]. apply String.eqb_eq in Hu.
  now destruct (H u Hin).
Qed.

Lemma email_unused (st : Store) (e : string) :
  reachable st ->
  (forall u, In u (crud st) -> normalizeEmail (email u) <> normalizeEmail e) ->
  forall u, In u (crud st) -> email u <> normalizeEmail e.
Proof.
  intros Hst H u Hin. apply reachable_store_ok in Hst.
  destruct Hst as [Hn _ _ _]. rewrite Forall_forall in Hn.
  rewrite <- (Hn u Hin). now apply H.
Qed.

(** C5, as the model stores it: a create request that passes validation,
    whose name, surname and jobTitle are not white space only and whose
    normalized e-mail no existing user has, is answered 201 with the
    stored record; the record is appended to the collection, and its
    name, surname and jobTitle are the trimmed inputs, its email the
    lower-cased and trimmed input. *)
Theorem create_stores_normalized_fields (v : string -> bool) (st : Store)
  (body : Body) (n s e j : string) :
  (forall x, v x = true -> nonBlank x) ->
  reachable st ->
  body "name" = Some n -> body "surname" = Some s ->
  body "email" = Some e -> body "jobTitle" = Some j ->
  nonBlank n -> nonBlank s -> nonBlank j ->
  v e = true ->
  (forall u, In u (crud st) -> normalizeEmail (email u) <> normalizeEmail e) ->
  let doc := {| _id := nextId st; name := JS.trim n; surname := JS.trim s;
                email := JS.trim (JS.toLowerCase e); jobTitle := JS.trim j;
                createdAt := now st; updatedAt := now st |} in
  run (signUp v body) st
  = ({| status := 201; json := JUser doc |},
     {| crud := crud st ++ [doc]; nextId := N.succ (nextId st);
        now := now st |}).
Proof.
  intros Hv Hst Bn Bs Be Bj Hn Hs Hj He Hfree doc.
  assert (Hunused := email_unused st e Hst Hfree).
  rewrite (run_signUp_valid v body st)
    by (eapply validation_passes; eauto using nonBlank_nonempty).
  rewrite Bn, Bs, Be, Bj.
  replace (List.find _ (crud st)) with (@None User).
  2: { symmetry. apply find_none. intros u Hin. simpl.
       apply String.eqb_neq. now apply Hunused. }
  cbn [exec].
  rewrite (castAndValidate_nonBlank n s e j Hn Hs
             (normalizeEmail_nonBlank e (Hv e He)) Hj).
  rewrite (duplicateKey_none _ None _ Hunused).
  reflexivity.
Qed.

Lemma create_stores_normalized_fields_witness :
  run (signUp Validator.isEmail Sample.shout) (emptyStore 5)
  = ({| status := 201;
        json := JUser {| _id := 0%N; name := "Al"; surname := "Ray";
                         email := "bob@x.io"; jobTitle := "ops";
                         createdAt := 5%N; updatedAt := 5%N |} |},
     {| crud := [ {| _id := 0%N; name := "Al"; surname := "Ray";
                     email := "bob@x.io"; jobTitle := "ops";
                     createdAt := 5%N; updatedAt := 5%N |} ];
        nextId := 1%N; now := 5%N |}).
Proof.
  apply (create_stores_normalized_fields Validator.isEmail (emptyStore 5)
           Sample.shout "Al" "Ray" "BOB@X.io" "ops" isEmail_nonBlank
           (reach_empty 5) eq_refl eq_refl eq_refl eq_refl);
    try (vm_compute; discriminate); try reflexivity.
  intros u [].
Defined.

(** C5 fails on the model: the name of the request starts with a space,
    the request is answered 201, and the stored name is not the input:
    the schema trims it. *)
Lemma create_trims_name_counterexample :
  Validator.isEmail "bob@x.io" = true
  /\ Sample.padded "name" = Some " Bob"
  /\ exists doc st',
       run (signUp Validator.isEmail Sample.padded) (emptyStore 5)
       = ({| status := 201; json := JUser doc |}, st')
       /\ crud st' = [doc]
       /\ name doc = "Bob"
       /\ Some (name doc) <> Sample.padded "name".
Proof.
  split; [reflexivity|]. split; [reflexivity|].
  eexists. eexists. split; [vm_compute; reflexivity|].
  repeat split. discriminate.
Qed.

(** C6: in every state the collection can reach, no two records share a
    normalized e-mail, and serving any request (create, list, get,
    update, delete) leads to a state where this holds again. *)
Theorem emails_stay_unique (v : string -> bool) (st : Store) (req : Request) :
  reachable st ->
  uniqueEmails st /\ uniqueEmails (snd (run (handler v req) st)).
Proof.
  intros Hst. split; apply store_ok_uniqueEmails, reachable_store_ok.
  - exact Hst.
  - now apply run_reachable.
Qed.

Lemma emails_stay_unique_witness :
  uniqueEmails Sample.oneUser
  /\ uniqueEmails
       (snd (run (handler Validator.isEmail (PutUser Sample.id0 Sample.shout))
               Sample.oneUser)).
Proof.
  exact (emails_stay_unique Validator.isEmail Sample.oneUser
           (PutUser Sample.id0 Sample.shout) oneUser_reachable).
Defined.

Lemma find_hasId_none (oid : ObjectId) (docs : list User) :
  (forall u, In u docs -> _id u <> oid) -> List.find (hasId oid) docs = None.
Proof.
  intros H. apply find_none. intros u Hin. unfold hasId.
  apply N.eqb_neq. now apply H.
Qed.

(** C7, as the handlers have it: for an id of 24 hexadecimal digits that
    matches no record, GET and DELETE are answered 404; PUT is answered 404 when its
    body passes validation, its name, surname and jobTitle are not white
    space only and no existing record has its normalized e-mail.  The
    store is left as it was. *)
Theorem missing_id_is_not_found (v : string -> bool) (st : Store)
  (id : string) (oid : ObjectId) (body : Body) (n s e j : string) :
  castObjectId id = Some oid ->
  (forall u, In u (crud st) -> _id u <> oid) ->
  run (getUser id) st = (notFound, st)
  /\ run (deleteUser id) st = (notFound, st)
  /\ ((forall x, v x = true -> nonBlank x) ->
      body "name" = Some n -> body "surname" = Some s ->
      body "email" = Some e -> body "jobTitle" = Some j ->
      nonBlank n -> nonBlank s -> nonBlank j -> v e = true ->
      (forall u, In u (crud st) -> email u <> normalizeEmail e) ->
      run (updateUser v id body) st = (notFound, st)).
Proof.
  intros Hid Hnone.
  assert (Hfind := find_hasId_none oid (crud st) Hnone).
  repeat split.
  - unfold getUser, awaitTry. cbn [run exec]. now rewrite Hid, Hfind.
  - unfold deleteUser, awaitTry. cbn [run exec]. now rewrite Hid, Hfind.
  - intros Hv Bn Bs Be Bj Hn Hs Hj He Hunused.
    rewrite (run_updateUser_valid v id oid body st)
      by (first [eapply validation_passes; eauto using nonBlank_nonempty
                | assumption]).
    rewrite Bn, Bs, Be, Bj.
    replace (List.find _ (crud st)) with (@None User).
    2: { symmetry. apply find_none. intros u Hin. simpl.
         replace (email u =? _)%string with false; [reflexivity|].
         symmetry. apply String.eqb_neq. now apply Hunused. }
    cbn [exec]. rewrite Hid.
    rewrite (castAndValidate_nonBlank n s e j Hn Hs
               (normalizeEmail_nonBlank e (Hv e He)) Hj).
    now rewrite Hfind.
Qed.

Lemma missing_id_is_not_found_witness :
  castObjectId Sample.id1 = Some 1%N
  /\ run (getUser Sample.id1) Sample.oneUser = (notFound, Sample.oneUser)
  /\ run (deleteUser Sample.id1) Sample.oneUser = (notFound, Sample.oneUser)
  /\ run (updateUser Validator.isEmail Sample.id1
            (mkBody (Some "Ann") (Some "Kay") (Some "ann@x.io") (Some "qa")))
       Sample.oneUser
     = (notFound, Sample.oneUser).
Proof.
  split; [reflexivity|].
  assert (Hnone : forall u, In u (crud Sample.oneUser) -> _id u <> 1%N).
  { intros u [<-|[]]. discriminate. }
  destruct (missing_id_is_not_found Validator.isEmail Sample.oneUser Sample.id1
              1%N (mkBody (Some "Ann") (Some "Kay") (Some "ann@x.io") (Some "qa"))
              "Ann" "Kay" "ann@x.io" "qa" eq_refl Hnone)
    as (Hget & Hdel & Hput).
  split; [exact Hget | split; [exact Hdel|]].
  apply Hput; try reflexivity; try (vm_compute; discriminate).
  - exact isEmail_nonBlank.
  - intros u [<-|[]]. discriminate.
Defined.

(** C7 fails on the handlers: the id has 24 hexadecimal digits and
    matches no record, the body is valid, and PUT is answered 400, because the
    e-mail of the body belongs to an existing user and that check comes
    first. *)
Lemma update_missing_id_counterexample :
  castObjectId Sample.id1 = Some 1%N
  /\ map _id (crud Sample.oneUser) = [0%N]
  /\ bodyErrors Validator.isEmail (PutUser Sample.id1 Sample.shout) = []
  /\ run (updateUser Validator.isEmail Sample.id1 Sample.shout) Sample.oneUser
     = (conflict "Another user with this email already exists.",
        Sample.oneUser).
Proof. vm_compute. auto. Qed.

(** What [trim] removes: white space in front and behind, and nothing
    else; what is left neither starts nor ends with white space. *)
Lemma trimStart_spec (s : string) :
  exists l,
    s = (l ++ JS.trimStart s)%string
    /\ JS.everyChar JS.isWhiteSpace l = true
    /\ forall c, Validator.firstChar (JS.trimStart s) = Some c ->
                 JS.isWhiteSpace c = false.
Proof.
  induction s as [|c s (l & Hs & Hl & Hfirst)]; simpl.
  - exists "". split; [reflexivity|]. split; [reflexivity|]. discriminate.
  - destruct (JS.isWhiteSpace c) eqn:W.
    + exists (String c l). simpl. rewrite W, Hl, <- Hs. auto.
    + exists "". split; [reflexivity|]. split; [reflexivity|].
      simpl. intros c' [= <-]. exact W.
Qed.

Lemma trimEnd_spec (s : string) :
  exists r,
    s = (JS.trimEnd s ++ r)%string
    /\ JS.everyChar JS.isWhiteSpace r = true
    /\ (forall c, Validator.lastChar (JS.trimEnd s) = Some c ->
                  JS.isWhiteSpace c = false)
    /\ (forall c, Validator.firstChar s = Some c ->
                  JS.isWhiteSpace c = false ->
                  Validator.firstChar (JS.trimEnd s) = Some c).
Proof.
  induction s as [|c s (r & Hs & Hr & Hlast & _)]; simpl.
  - exists "". split; [reflexivity|]. split; [reflexivity|].
    split; discriminate.
  - destruct (JS.trimEnd s) as [|d t] eqn:E.
    + simpl in Hs. subst r.
      destruct (JS.isWhiteSpace c) eqn:W.
      * exists (String c s). simpl. rewrite W, Hr.
        split; [reflexivity|]. split; [reflexivity|].
        split; [discriminate|]. intros c' [= <-]. congruence.
      * exists s. simpl.
        split; [reflexivity|]. split; [assumption|].
        split; [intros c' [= <-]; exact W | auto].
    + exists r. simpl. rewrite Hs at 1.
      split; [reflexivity|]. split; [assumption|].
      split; [exact Hlast | auto].
Qed.

Lemma trim_spec (s : string) :
  exists l r,
    s = (l ++ JS.trim s ++ r)%string
    /\ JS.everyChar JS.isWhiteSpace l = true
    /\ JS.everyChar JS.isWhiteSpace r = true
    /\ (forall c, Validator.firstChar (JS.trim s) = Some c ->
                  JS.isWhiteSpace c = false)
    /\ (forall c, Validator.lastChar (JS.trim s) = Some c ->
                  JS.isWhiteSpace c = false).
Proof.
  destruct (trimStart_spec s) as (l & Hs & Hl & Hfirst).
  destruct (trimEnd_spec (JS.trimStart s)) as (r & Ht & Hr & Hlast & Hkeep).
  exists l, r. unfold JS.trim. rewrite <- Ht.
  repeat split; auto.
  intros c Hc.
  destruct (JS.trimStart s) as [|d t] eqn:E; [discriminate|].
  specialize (Hfirst d eq_refl).
  rewrite (Hkeep d eq_refl Hfirst) in Hc. congruence.
Qed.

Lemma trim_trimmedFrom (s : string) : trimmedFrom s (JS.trim s).
Proof.
  destruct (trim_spec s) as (l & r & Hs & Hl & Hr & Hfirst & Hlast).
  split; [exists l, r; auto | split; assumption].
Qed.

Lemma lowerChar_spec (c : ascii) :
  if isUpperCase c
  then N_of_ascii (JS.lowerChar c) = (N_of_ascii c + 32)%N
  else JS.lowerChar c = c.
Proof. destruct c as [[] [] [] [] [] [] [] []]; reflexivity. Qed.

Lemma lowerChar_not_upper (c : ascii) : isUpperCase (JS.lowerChar c) = false.
Proof. destruct c as [[] [] [] [] [] [] [] []]; reflexivity. Qed.

Lemma toLowerCase_lowerCased (s : string) : lowerCased s (JS.toLowerCase s).
Proof.
  induction s as [|c s IH]; simpl; [exact I|].
  split; [apply lowerChar_spec | exact IH].
Qed.

Lemma toLowerCase_noUpperCase (s : string) : noUpperCase (JS.toLowerCase s).
Proof.
  unfold noUpperCase, JS.toLowerCase.
  induction s as [|c s IH]; simpl; [reflexivity|].
  now rewrite lowerChar_not_upper, IH.
Qed.

Lemma everyChar_trimStart_keeps (p : ascii -> bool) (s : string) :
  JS.everyChar p s = true -> JS.everyChar p (JS.trimStart s) = true.
Proof.
  induction s as [|c s IH]; simpl; [auto|].
  intros H. destruct (JS.isWhiteSpace c); [|exact H].
  apply andb_true_iff in H as [_ H]. auto.
Qed.

Lemma everyChar_trimEnd_keeps (p : ascii -> bool) (s : string) :
  JS.everyChar p s = true -> JS.everyChar p (JS.trimEnd s) = true.
Proof.
  induction s as [|c s IH]; simpl; [auto|].
  intros H. apply andb_true_iff in H as [Hc H]. specialize (IH H).
  destruct (JS.trimEnd s) as [|d t].
  - destruct (JS.isWhiteSpace c); simpl; [reflexivity | now rewrite Hc].
  - simpl in *. now rewrite Hc, IH.
Qed.

Lemma normalizeEmail_noUpperCase (e : string) : noUpperCase (normalizeEmail e).
Proof.
  rewrite normalizeEmail_unfold. unfold noUpperCase, JS.trim.
  apply everyChar_trimEnd_keeps, everyChar_trimStart_keeps.
  apply toLowerCase_noUpperCase.
Qed.

Lemma run_updateUser_malformed (v : string -> bool) (id : string)
  (body : Body) (st : Store) :
  validationResult v updateChains body = [] ->
  castObjectId id = None ->
  run (updateUser v id body) st = (failure (castError id), st).
Proof.
  intros H Hid. unfold updateUser. rewrite H. cbn [isEmptyResult negb].
  unfold awaitTry. cbn [run exec]. now rewrite Hid.
Qed.

Lemma status_success (n : nat) : In n [200; 201] -> n <> 400 /\ n <> 404 /\ n <> 500.
Proof. intros [<-|[<-|[]]]; repeat split; discriminate. Qed.

(** C10: the record a successful create (201) or update (200) leaves in
    the collection holds the name, surname and jobTitle of the request
    with the white space in front and behind removed and nothing else
    changed; its e-mail is the e-mail of the request in lower case, with
    the white space in front and behind removed: every editable field is
    trimmed. *)
Theorem persisted_fields_are_trimmed (v : string -> bool) (req : Request)
  (body : Body) (st : Store) :
  bodyOf req = Some body ->
  In (status (fst (run (handler v req) st))) [200; 201] ->
  exists doc n s e j lower,
    json (fst (run (handler v req) st)) = JUser doc
    /\ In doc (crud (snd (run (handler v req) st)))
    /\ body "name" = Some n /\ body "surname" = Some s
    /\ body "email" = Some e /\ body "jobTitle" = Some j
    /\ trimmedFrom n (name doc)
    /\ trimmedFrom s (surname doc)
    /\ trimmedFrom j (jobTitle doc)
    /\ lowerCased e lower /\ trimmedFrom lower (email doc).
Proof.
  intros Hbody Hstatus. apply status_success in Hstatus as (H400 & H404 & H500).
  destruct (bodyErrors v req) as [|err errs] eqn:Hval.
  2: { rewrite (handler_invalid v req) in H400 by (rewrite Hval; discriminate).
       now destruct H400. }
  destruct req as [b | | id0 | id b | id0]; try discriminate;
    injection Hbody as ->; cbn [bodyErrors handler] in *.
  - rewrite (run_signUp_valid v body st Hval) in *.
    destruct (List.find _ (crud st)); [now destruct H400|].
    cbn [exec] in *.
    destruct (castAndValidate _ _ _ _) as [[[[vn vs] ve] vj]|error] eqn:Hcast;
      [|now destruct H500].
    destruct (duplicateKey ve None (crud st)); [now destruct H500|].
    apply castAndValidate_fulfilled in Hcast
      as ((n0 & Bn & -> & _) & (s0 & Bs & -> & _) & (e0 & Be & -> & _)
          & (j0 & Bj & -> & _)).
    eexists. exists n0, s0, e0, j0, (JS.toLowerCase e0).
    split; [reflexivity|]. cbn [fst snd crud].
    split; [apply in_or_app; right; left; reflexivity|].
    cbn [name surname email jobTitle].
    repeat (split; [assumption|]).
    repeat (split; [apply trim_trimmedFrom|]).
    split; [apply toLowerCase_lowerCased | apply trim_trimmedFrom].
  - destruct (castObjectId id) as [oid|] eqn:Hid.
    2: { rewrite (run_updateUser_malformed v id body st Hval Hid) in H500.
         now destruct H500. }
    rewrite (run_updateUser_valid v id oid body st Hval Hid) in *.
    destruct (List.find _ (crud st)); [now destruct H400|].
    cbn [exec] in *. rewrite Hid in *.
    destruct (castAndValidate _ _ _ _) as [[[[vn vs] ve] vj]|error] eqn:Hcast;
      [|now destruct H500].
    destruct (List.find (hasId oid) (crud st)) as [old|] eqn:Hfind;
      [|now destruct H404].
    destruct (duplicateKey ve (Some oid) (crud st)); [now destruct H500|].
    apply castAndValidate_fulfilled in Hcast
      as ((n0 & Bn & -> & _) & (s0 & Bs & -> & _) & (e0 & Be & -> & _)
          & (j0 & Bj & -> & _)).
    destruct (find_split _ _ _ Hfind) as (before & after & _ & _ & Hrep & _).
    eexists. exists n0, s0, e0, j0, (JS.toLowerCase e0).
    split; [reflexivity|]. cbn [fst snd crud withDocs].
    split; [rewrite Hrep; apply in_or_app; right; left; reflexivity|].
    cbn [name surname email jobTitle].
    repeat (split; [assumption|]).
    repeat (split; [apply trim_trimmedFrom|]).
    split; [apply toLowerCase_lowerCased | apply trim_trimmedFrom].
Qed.

Lemma persisted_fields_are_trimmed_witness :
  json (fst (run (handler Validator.isEmail (PostSignUp Sample.ann'))
               Sample.oneUser))
  = JUser {| _id := 1%N; name := "Ann"; surname := "Kay"; email := "ann@x.io";
             jobTitle := "qa"; createdAt := 5%N; updatedAt := 5%N |}
  /\ Sample.ann' "name" = Some " Ann "
  /\ Sample.ann' "email" = Some "Ann@X.io"
  /\ trimmedFrom " Ann " "Ann"
  /\ trimmedFrom "Kay" "Kay"
  /\ trimmedFrom "qa" "qa"
  /\ exists lower, lowerCased "Ann@X.io" lower /\ trimmedFrom lower "ann@x.io".
Proof.
  destruct (persisted_fields_are_trimmed Validator.isEmail
              (PostSignUp Sample.ann') Sample.ann' Sample.oneUser eq_refl)
    as (doc & n & s & e & j & lower & Hjson & _ & Bn & Bs & Be & Bj
        & Tn & Ts & Tj & Hlower & Te).
  { vm_compute. right. left. reflexivity. }
  vm_compute in Hjson. injection Hjson as <-.
  vm_compute in Bn, Bs, Be, Bj.
  injection Bn as <-. injection Bs as <-. injection Be as <-.
  injection Bj as <-.
  split; [reflexivity|]. split; [reflexivity|]. split; [reflexivity|].
  split; [exact Tn|]. split; [exact Ts|]. split; [exact Tj|].
  exists lower. split; assumption.
Defined.

(** ** The model on concrete requests *)

Example isEmail_plain : Validator.isEmail "ann@example.com" = true.
Proof. reflexivity. Qed.

Example isEmail_upper : Validator.isEmail "Ann@Example.COM" = true.
Proof. reflexivity. Qed.

Example isEmail_padded : Validator.isEmail " ann@x.io" = false.
Proof. reflexivity. Qed.

Example isEmail_no_at : Validator.isEmail "example.com" = false.
Proof. reflexivity. Qed.

Example castObjectId_hex :
  castObjectId "0000000000000000000000fF" = Some 255%N.
Proof. reflexivity. Qed.

Example castObjectId_not_hex :
  castObjectId "00000000000000000000000g" = None.
Proof. reflexivity. Qed.

(** A padded address never reaches the model: the chain of email rejects
    it, and the name that is only padded is not reported. *)
Example padded_email_is_invalid :
  fst (serve (PostSignUp Sample.ann) Sample.oneUser)
  = badRequest [ {| errValue := Some " ann@x.io";
                    errMsg := "Valid email is required.";
                    errParam := "email"; errLocation := "body" |} ].
Proof. reflexivity. Qed.

(** A name of white space only passes the chains, is trimmed to the empty
    string by the schema and then fails [required]: the save is rejected
    and the handler answers 500. *)
Example blank_name_create :
  serve (PostSignUp (mkBody (Some " ") (Some "Lee") (Some "lee@x.io")
                       (Some "dev"))) Sample.oneUser
  = (failure (ValidationError ["name"]), Sample.oneUser).
Proof. reflexivity. Qed.

Example blank_name_update :
  serve (PutUser Sample.id0 (mkBody (Some " ") (Some "Lee") (Some "lee@x.io")
                               (Some "dev"))) Sample.oneUser
  = (failure (ValidationError ["name"]), Sample.oneUser).
Proof. reflexivity. Qed.

(** Updating a user to its own current address succeeds. *)
Example update_own_email :
  fst (serve (PutUser Sample.id0 Sample.shout) Sample.oneUser)
  = {| status := 200;
       json := JUser {| _id := 0%N; name := "Al"; surname := "Ray";
                        email := "bob@x.io"; jobTitle := "ops";
                        createdAt := 5%N; updatedAt := 5%N |} |}.
Proof. reflexivity. Qed.

(** After a delete, the id is not found any more. *)
Example get_after_delete :
  fst (serve (GetUser Sample.id0)
         (snd (serve (DeleteUser Sample.id0) Sample.oneUser)))
  = notFound.
Proof. reflexivity. Qed.

(** ** More of the handlers: reading, deleting, updating *)

Lemma find_hasId_unique (docs : list User) (u : User) :
  NoDup (map _id docs) -> In u docs ->
  List.find (hasId (_id u)) docs = Some u.
Proof.
  induction docs as [|w ws IH]; simpl; [intros _ []|].
  intros Hnd Hin. inversion Hnd as [|x xs Hnot Hnd']; subst.
  unfold hasId at 1. destruct (N.eqb_spec (_id w) (_id u)) as [E|E].
  - destruct Hin as [->|Hin]; [reflexivity|].
    exfalso. apply Hnot. rewrite E. now apply in_map.
  - destruct Hin as [->|Hin]; [now destruct E|]. now apply IH.
Qed.

(** With unique identifiers, removing the first match leaves the records
    of every other identifier, and only them. *)
Lemma removeFirst_in (docs : list User) (oid : ObjectId) (w : User) :
  NoDup (map _id docs) ->
  In w (removeFirst (hasId oid) docs) <-> In w docs /\ _id w <> oid.
Proof.
  induction docs as [|z zs IH]; simpl; [tauto|].
  intros Hnd. inversion Hnd as [|x xs Hnot Hnd']; subst.
  unfold hasId at 1. destruct (N.eqb_spec (_id z) oid) as [E|E].
  - split.
    + intros Hw. split; [now right|]. intros Ew. apply Hnot.
      rewrite E, <- Ew. now apply in_map.
    + intros [[->|Hw] Hne]; [now destruct Hne | exact Hw].
  - simpl. rewrite (IH Hnd'). split.
    + intros [->|[Hw Hne]]; auto.
    + intros [[->|Hw] Hne]; auto.
Qed.

(** With unique identifiers, replacing the first match leaves the new
    record and the records of every other identifier, and only them. *)
Lemma replaceFirst_in (docs : list User) (oid : ObjectId) (doc w : User) :
  NoDup (map _id docs) ->
  (exists old, In old docs /\ _id old = oid) ->
  In w (replaceFirst (hasId oid) doc docs)
  <-> w = doc \/ (In w docs /\ _id w <> oid).
Proof.
  induction docs as [|z zs IH]; simpl; [intros _ (old & [] & _)|].
  intros Hnd (old & Hold & Eold).
  inversion Hnd as [|x xs Hnot Hnd']; subst.
  unfold hasId at 1. destruct (N.eqb_spec (_id z) (_id old)) as [E|E].
  - simpl. split.
    + intros [<-|Hw]; [now left|]. right. split; [now right|].
      intros Ew. apply Hnot. rewrite E, <- Ew. now apply in_map.
    + intros [->|[[->|Hw] Hne]]; [now left | now destruct Hne | now right].
  - destruct Hold as [->|Hold]; [now destruct E|].
    simpl. rewrite (IH Hnd') by (exists old; auto). split.
    + intros [->|[->|[Hw Hne]]]; auto.
    + intros [->|[[->|Hw] Hne]]; auto.
Qed.

Lemma run_getUser (id : string) (oid : ObjectId) (st : Store) :
  castObjectId id = Some oid ->
  run (getUser id) st
  = (match List.find (hasId oid) (crud st) with
     | Some u => ok u
     | None => notFound
     end, st).
Proof.
  intros Hid. unfold getUser, awaitTry. cbn [run exec]. rewrite Hid.
  destruct (List.find _ (crud st)); reflexivity.
Qed.

Lemma run_deleteUser (id : string) (oid : ObjectId) (st : Store) :
  castObjectId id = Some oid ->
  run (deleteUser id) st
  = match List.find (hasId oid) (crud st) with
    | Some _ => (deleted, withDocs st (removeFirst (hasId oid) (crud st)))
    | None => (notFound, st)
    end.
Proof.
  intros Hid. unfold deleteUser, awaitTry. cbn [run exec]. rewrite Hid.
  destruct (List.find _ (crud st)); reflexivity.
Qed.

Lemma get_existing_user_aux (st : Store) (id : string) (u : User) :
  reachable st ->
  In u (crud st) ->
  castObjectId id = Some (_id u) ->
  run (getUser id) st = (ok u, st).
Proof.
  intros Hst Hin Hid. rewrite (run_getUser id (_id u) st Hid).
  apply reachable_store_ok in Hst. destruct Hst as [_ _ Hids _].
  now rewrite (find_hasId_unique (crud st) u Hids Hin).
Qed.

(** X1: GET /users/:id with the 24 hexadecimal digits of the id of a
    stored record answers 200 with that record and leaves the store as it
    was. *)
Theorem get_existing_user (st : Store) (id : string) (u : User) :
  reachable st ->
  In u (crud st) ->
  castObjectId id = Some (_id u) ->
  run (getUser id) st = (ok u, st).
Proof.
  intros Hst Hin Hid. now apply get_existing_user_aux.
Qed.

Lemma get_existing_user_witness :
  run (getUser Sample.id0) Sample.oneUser = (ok Sample.bobRecord, Sample.oneUser).
Proof.
  apply (get_existing_user Sample.oneUser Sample.id0 Sample.bobRecord
           oneUser_reachable).
  - left. reflexivity.
  - reflexivity.
Defined.

(** X2: DELETE /users/:id with the 24 hexadecimal digits of the id of a
    stored record answers 200 with the confirmation message; the records
    of the collection afterwards are those it had before under another
    id, and no others. *)
Theorem delete_existing_user (st : Store) (id : string) (u : User) :
  reachable st ->
  In u (crud st) ->
  castObjectId id = Some (_id u) ->
  fst (run (deleteUser id) st) = deleted
  /\ forall w, In w (crud (snd (run (deleteUser id) st)))
               <-> In w (crud st) /\ _id w <> _id u.
Proof.
  intros Hst Hin Hid. rewrite (run_deleteUser id (_id u) st Hid).
  apply reachable_store_ok in Hst. destruct Hst as [_ _ Hids _].
  rewrite (find_hasId_unique (crud st) u Hids Hin).
  split; [reflexivity|]. intros w. cbn [snd withDocs crud].
  now apply removeFirst_in.
Qed.

Lemma delete_existing_user_witness :
  fst (run (deleteUser Sample.id0) Sample.twoUsers) = deleted
  /\ forall w, In w (crud (snd (run (deleteUser Sample.id0) Sample.twoUsers)))
               <-> In w [Sample.bobRecord; Sample.eveRecord] /\ _id w <> 0%N.
Proof.
  apply (delete_existing_user Sample.twoUsers Sample.id0 Sample.bobRecord
           twoUsers_reachable).
  - left. reflexivity.
  - reflexivity.
Defined.

(** X3: once DELETE /users/:id has been served for an id of 24
    hexadecimal digits, whatever it answered, a GET or a second DELETE with
    the same id is answered 404. *)
Theorem gone_after_delete (st : Store) (id : string) (oid : ObjectId) :
  reachable st ->
  castObjectId id = Some oid ->
  let st' := snd (run (deleteUser id) st) in
  run (getUser id) st' = (notFound, st')
  /\ run (deleteUser id) st' = (notFound, st').
Proof.
  intros Hst Hid st'.
  assert (Hnone : List.find (hasId oid) (crud st') = None).
  { subst st'. rewrite (run_deleteUser id oid st Hid).
    destruct (List.find (hasId oid) (crud st)) as [u|] eqn:Hfind;
      [|exact Hfind].
    cbn [snd withDocs crud].
    apply reachable_store_ok in Hst. destruct Hst as [_ _ Hids _].
    apply find_none. intros w Hw.
    apply (removeFirst_in (crud st) oid w Hids) in Hw as [_ Hw].
    unfold hasId. now apply N.eqb_neq. }
  rewrite (run_getUser id oid st' Hid), (run_deleteUser id oid st' Hid), Hnone.
  split; reflexivity.
Qed.

Lemma gone_after_delete_witness :
  let st' := snd (run (deleteUser Sample.id0) Sample.oneUser) in
  run (getUser Sample.id0) st' = (notFound, st')
  /\ run (deleteUser Sample.id0) st' = (notFound, st').
Proof.
  exact (gone_after_delete Sample.oneUser Sample.id0 0%N oneUser_reachable
           eq_refl).
Defined.

(** What a 201 of POST /sign-up means for the store. *)
Lemma signUp_created_inv (v : string -> bool) (body : Body) (st : Store) :
  status (fst (run (signUp v body) st)) = 201 ->
  exists doc,
    run (signUp v body) st
    = (created doc,
       {| crud := crud st ++ [doc]; nextId := N.succ (nextId st);
          now := now st |}).
Proof.
  intros H201.
  destruct (validationResult v signUpChains body) as [|err errs] eqn:Hval.
  2: { assert (Hne : bodyErrors v (PostSignUp body) <> [])
         by (cbn [bodyErrors]; rewrite Hval; discriminate).
       change (signUp v body) with (handler v (PostSignUp body)) in H201.
       rewrite (handler_invalid v _ Hne) in H201. discriminate. }
  rewrite (run_signUp_valid v body st Hval) in *.
  destruct (List.find _ (crud st)); [discriminate|].
  cbn [exec] in *.
  destruct (castAndValidate _ _ _ _) as [[[[vn vs] ve] vj]|error];
    [|discriminate].
  destruct (duplicateKey ve None (crud st)); [discriminate|].
  eexists. reflexivity.
Qed.

Lemma signUp_created_doc (v : string -> bool) (body : Body) (st : Store)
  (doc : User) :
  fst (run (signUp v body) st) = created doc ->
  crud (snd (run (signUp v body) st)) = crud st ++ [doc].
Proof.
  intros Hfst.
  assert (H201 : status (fst (run (signUp v body) st)) = 201)
    by (now rewrite Hfst).
  destruct (signUp_created_inv v body st H201) as (doc' & Hrun).
  rewrite Hrun in *. cbn [fst snd crud] in *.
  now injection Hfst as ->.
Qed.

(** X4: the record POST /sign-up answers with (201) is the one a GET
    with the 24 hexadecimal digits of its [_id] returns right after. *)
Theorem get_after_create (v : string -> bool) (body : Body) (st : Store)
  (doc : User) (id : string) :
  reachable st ->
  fst (run (signUp v body) st) = created doc ->
  castObjectId id = Some (_id doc) ->
  run (getUser id) (snd (run (signUp v body) st))
  = (ok doc, snd (run (signUp v body) st)).
Proof.
  intros Hst Hfst Hid.
  apply get_existing_user_aux; [now apply run_reachable | | exact Hid].
  rewrite (signUp_created_doc v body st doc Hfst).
  apply in_or_app. right. left. reflexivity.
Qed.

Lemma get_after_create_witness :
  run (getUser Sample.id1)
    (snd (run (signUp Validator.isEmail Sample.ann') Sample.oneUser))
  = (ok Sample.annRecord,
     snd (run (signUp Validator.isEmail Sample.ann') Sample.oneUser)).
Proof.
  exact (get_after_create Validator.isEmail Sample.ann' Sample.oneUser
           Sample.annRecord Sample.id1 oneUser_reachable eq_refl eq_refl).
Defined.

(** X5: after a create answered 201, GET /users answers 200 with the
    records that were stored before and the new one, and no others, and
    changes nothing. *)
Theorem list_after_create (v : string -> bool) (body : Body) (st : Store)
  (doc : User) :
  fst (run (signUp v body) st) = created doc ->
  exists users,
    run listUsers (snd (run (signUp v body) st))
    = ({| status := 200; json := JUsers users |},
       snd (run (signUp v body) st))
    /\ forall w, In w users <-> In w (crud st) \/ w = doc.
Proof.
  intros Hfst. exists (crud (snd (run (signUp v body) st))).
  split; [reflexivity|].
  rewrite (signUp_created_doc v body st doc Hfst).
  intros w. rewrite in_app_iff. simpl. intuition.
Qed.

Lemma list_after_create_witness :
  exists users,
    run listUsers
      (snd (run (signUp Validator.isEmail Sample.ann') Sample.oneUser))
    = ({| status := 200; json := JUsers users |},
       snd (run (signUp Validator.isEmail Sample.ann') Sample.oneUser))
    /\ forall w, In w users <-> In w [Sample.bobRecord] \/ w = Sample.annRecord.
Proof.
  exact (list_after_create Validator.isEmail Sample.ann' Sample.oneUser
           Sample.annRecord eq_refl).
Defined.

Lemma duplicateKey_self (e : string) (oid : ObjectId) (docs : list User) :
  (forall u, In u docs -> _id u <> oid -> email u <> e) ->
  duplicateKey e (Some oid) docs = false.
Proof.
  intros H. unfold duplicateKey. cbn [unique userSchema.email andb].
  destruct (existsb _ docs) eqn:Ex; [|reflexivity].
  apply existsb_exists in Ex as (u & Hin & Hu).
  apply andb_true_iff in Hu as [Hu Hne]. apply String.eqb_eq in Hu.
  apply negb_true_iff in Hne. unfold hasId in Hne. apply N.eqb_neq in Hne.
  now destruct (H u Hin Hne).
Qed.

(** PUT /users/:id on a stored record, with a body the model accepts and
    an e-mail no other record holds. *)
Lemma run_updateUser_ok (v : string -> bool) (st : Store) (id : string)
  (old : User) (body : Body) (n s e j : string) :
  (forall x, v x = true -> nonBlank x) ->
  reachable st ->
  In old (crud st) ->
  castObjectId id = Some (_id old) ->
  body "name" = Some n -> body "surname" = Some s ->
  body "email" = Some e -> body "jobTitle" = Some j ->
  nonBlank n -> nonBlank s -> nonBlank j -> v e = true ->
  (forall u, In u (crud st) -> _id u <> _id old -> email u <> normalizeEmail e) ->
  run (updateUser v id body) st
  = (ok (updatedDoc old n s e j (now st)),
     withDocs st
       (replaceFirst (hasId (_id old)) (updatedDoc old n s e j (now st))
          (crud st))).
Proof.
  intros Hv Hst Hin Hid Bn Bs Be Bj Hn Hs Hj He Hothers.
  apply reachable_store_ok in Hst. destruct Hst as [_ _ Hids _].
  rewrite (run_updateUser_valid v id (_id old) body st)
    by (first [eapply validation_passes; eauto using nonBlank_nonempty
              | assumption]).
  rewrite Bn, Bs, Be, Bj.
  replace (List.find _ (crud st)) with (@None User).
  2: { symmetry. apply find_none. intros u Hu. cbn [castString option_map hasEmail].
       fold (normalizeEmail e).
       destruct (N.eq_dec (_id u) (_id old)) as [E|E].
       - unfold hasId. apply N.eqb_eq in E. rewrite E. apply andb_false_r.
       - replace (email u =? normalizeEmail e)%string with false; [reflexivity|].
         symmetry. apply String.eqb_neq. now apply Hothers. }
  cbn [exec]. rewrite Hid.
  rewrite (castAndValidate_nonBlank n s e j Hn Hs
             (normalizeEmail_nonBlank e (Hv e He)) Hj).
  rewrite (find_hasId_unique (crud st) old Hids Hin).
  rewrite (duplicateKey_self _ _ _ Hothers).
  reflexivity.
Qed.

(** X6: PUT /users/:id on a stored record (id of 24 hexadecimal digits),
    with a valid body whose name, surname and jobTitle are not white
    space only and whose normalized e-mail no other record holds, answers
    200 with the updated record: name, surname and jobTitle are the
    inputs without the white space around them, the e-mail is the input
    in lower case without the white space around it, [_id] and
    [createdAt] are kept, [updatedAt] is the current time.  The
    collection holds the updated record and the records of every other
    id as they were, and nothing else. *)
Theorem update_existing_user (v : string -> bool) (st : Store) (id : string)
  (old : User) (body : Body) (n s e j : string) :
  (forall x, v x = true -> nonBlank x) ->
  reachable st ->
  In old (crud st) ->
  castObjectId id = Some (_id old) ->
  body "name" = Some n -> body "surname" = Some s ->
  body "email" = Some e -> body "jobTitle" = Some j ->
  nonBlank n -> nonBlank s -> nonBlank j -> v e = true ->
  (forall u, In u (crud st) -> _id u <> _id old -> email u <> normalizeEmail e) ->
  exists doc lower,
    fst (run (updateUser v id body) st) = ok doc
    /\ _id doc = _id old
    /\ createdAt doc = createdAt old
    /\ updatedAt doc = now st
    /\ trimmedFrom n (name doc)
    /\ trimmedFrom s (surname doc)
    /\ trimmedFrom j (jobTitle doc)
    /\ lowerCased e lower /\ trimmedFrom lower (email doc)
    /\ forall w, In w (crud (snd (run (updateUser v id body) st)))
                 <-> w = doc \/ (In w (crud st) /\ _id w <> _id old).
Proof.
  intros Hv Hst Hin Hid Bn Bs Be Bj Hn Hs Hj He Hothers.
  rewrite (run_updateUser_ok v st id old body n s e j); auto.
  exists (updatedDoc old n s e j (now st)), (JS.toLowerCase e).
  cbn [fst snd withDocs crud updatedDoc _id createdAt updatedAt name surname
         email jobTitle].
  repeat (split; [reflexivity|]).
  repeat (split; [apply trim_trimmedFrom|]).
  split; [apply toLowerCase_lowerCased|].
  split; [apply trim_trimmedFrom|].
  intros w. apply replaceFirst_in.
  - apply reachable_store_ok in Hst. now destruct Hst.
  - exists old. auto.
Qed.

Lemma update_existing_user_witness :
  fst (run (updateUser Validator.isEmail Sample.id1 Sample.ann') Sample.twoUsers)
  = ok {| _id := 1%N; name := "Ann"; surname := "Kay"; email := "ann@x.io";
          jobTitle := "qa"; createdAt := 5%N; updatedAt := 5%N |}
  /\ forall w,
       In w (crud (snd (run (updateUser Validator.isEmail Sample.id1 Sample.ann')
                          Sample.twoUsers)))
       <-> w = {| _id := 1%N; name := "Ann"; surname := "Kay";
                  email := "ann@x.io"; jobTitle := "qa";
                  createdAt := 5%N; updatedAt := 5%N |}
           \/ (In w [Sample.bobRecord; Sample.eveRecord] /\ _id w <> 1%N).
Proof.
  destruct (update_existing_user Validator.isEmail Sample.twoUsers Sample.id1
              Sample.eveRecord Sample.ann' " Ann " "Kay" "Ann@X.io" "qa"
              isEmail_nonBlank twoUsers_reachable)
    as (doc & lower & Hfst & _ & _ & _ & _ & _ & _ & _ & _ & Hdocs);
    try reflexivity; try (vm_compute; discriminate).
  - right. left. reflexivity.
  - intros u [<-|[<-|[]]] Hne; [discriminate | now destruct Hne].
  - vm_compute in Hfst. injection Hfst as <-.
    split; [reflexivity | exact Hdocs].
Defined.

(** X7: a user can be updated to its own current e-mail, in any case:
    the pre-check leaves the record itself out, the answer is 200 and the
    record keeps its id and its e-mail. *)
Theorem update_keeps_own_email (v : string -> bool) (st : Store) (id : string)
  (old : User) (body : Body) (n s e j : string) :
  (forall x, v x = true -> nonBlank x) ->
  reachable st ->
  In old (crud st) ->
  castObjectId id = Some (_id old) ->
  body "name" = Some n -> body "surname" = Some s ->
  body "email" = Some e -> body "jobTitle" = Some j ->
  nonBlank n -> nonBlank s -> nonBlank j -> v e = true ->
  normalizeEmail e = email old ->
  exists doc,
    fst (run (updateUser v id body) st) = ok doc
    /\ _id doc = _id old
    /\ email doc = email old.
Proof.
  intros Hv Hst Hin Hid Bn Bs Be Bj Hn Hs Hj He Hown.
  exists (updatedDoc old n s e j (now st)).
  split; [|split; [reflexivity | exact Hown]].
  rewrite (run_updateUser_ok v st id old body n s e j); auto.
  intros u Hu Hne Hmail. apply Hne.
  apply reachable_store_ok in Hst. destruct Hst as [_ Hemails _ _].
  rewrite Hown in Hmail.
  clear - Hemails Hin Hu Hmail.
  induction (crud st) as [|w ws IH]; [destruct Hin|].
  simpl in Hemails. inversion Hemails as [|x xs Hnot Hnd]; subst.
  destruct Hin as [->|Hin], Hu as [->|Hu]; auto.
  - exfalso. apply Hnot. rewrite <- Hmail. now apply in_map.
  - exfalso. apply Hnot. rewrite Hmail. now apply in_map.
Qed.

Lemma update_keeps_own_email_witness :
  exists doc,
    fst (run (updateUser Validator.isEmail Sample.id0 Sample.shout)
           Sample.twoUsers) = ok doc
    /\ _id doc = 0%N
    /\ email doc = "bob@x.io".
Proof.
  apply (update_keeps_own_email Validator.isEmail Sample.twoUsers Sample.id0
           Sample.bobRecord Sample.shout "Al" "Ray" "BOB@X.io" "ops"
           isEmail_nonBlank twoUsers_reachable);
    try reflexivity; try (vm_compute; discriminate).
  left. reflexivity.
Defined.

(** X8: PUT /users/:id (id of 24 hexadecimal digits) with the e-mail of
    a different stored user, up to letter case and surrounding white
    space, is answered 400 and changes nothing. *)
Theorem update_to_taken_email_rejected (v : string -> bool) (st : Store)
  (id : string) (oid : ObjectId) (body : Body) (u : User) (e : string) :
  reachable st ->
  In u (crud st) ->
  castObjectId id = Some oid ->
  _id u <> oid ->
  body "email" = Some e ->
  normalizeEmail e = normalizeEmail (email u) ->
  status (fst (run (updateUser v id body) st)) = 400
  /\ snd (run (updateUser v id body) st) = st.
Proof.
  intros Hst Hin Hid Hne He Hsame.
  destruct (validationResult v updateChains body) as [|err errs] eqn:Hval.
  - rewrite (run_updateUser_valid v id oid body st Hval Hid), He.
    apply reachable_store_ok in Hst. destruct Hst as [Hn _ _ _].
    rewrite Forall_forall in Hn. specialize (Hn u Hin). unfold normalized in Hn.
    destruct (find_some_in
                (fun w => hasEmail (castString userSchema.email (Some e)) w
                          && negb (hasId oid w))
                (crud st) u Hin) as [w ->]; [|auto].
    cbn [castString option_map hasEmail]. fold (normalizeEmail e).
    rewrite Hsame, Hn, String.eqb_refl. unfold hasId.
    apply N.eqb_neq in Hne. now rewrite Hne.
  - assert (Hbad : bodyErrors v (PutUser id body) <> [])
      by (cbn [bodyErrors]; rewrite Hval; discriminate).
    change (updateUser v id body) with (handler v (PutUser id body)).
    rewrite (handler_invalid v _ Hbad). auto.
Qed.

Lemma update_to_taken_email_rejected_witness :
  status (fst (run (updateUser Validator.isEmail Sample.id1 Sample.shout)
                 Sample.oneUser)) = 400
  /\ snd (run (updateUser Validator.isEmail Sample.id1 Sample.shout)
            Sample.oneUser) = Sample.oneUser.
Proof.
  apply (update_to_taken_email_rejected Validator.isEmail Sample.oneUser
           Sample.id1 1%N Sample.shout Sample.bobRecord "BOB@X.io"
           oneUser_reachable).
  - left. reflexivity.
  - reflexivity.
  - discriminate.
  - reflexivity.
  - reflexivity.
Defined.


(** ** What the handlers never do *)

Lemma precheck_no_duplicate (e : string) (docs : list User) :
  List.find (hasEmail (Some e)) docs = None ->
  duplicateKey e None docs = false.
Proof.
  intros H. apply duplicateKey_none. intros u Hu.
  apply (proj1 (find_none _ _) H) in Hu. simpl in Hu.
  now apply String.eqb_neq.
Qed.

Lemma precheck_ne_no_duplicate (e : string) (oid : ObjectId)
  (docs : list User) :
  List.find (fun u => hasEmail (Some e) u && negb (hasId oid u)) docs = None ->
  duplicateKey e (Some oid) docs = false.
Proof.
  intros H. apply duplicateKey_self. intros u Hu Hne.
  apply (proj1 (find_none _ _) H) in Hu. simpl in Hu.
  unfold hasId in Hu. apply N.eqb_neq in Hne. rewrite Hne in Hu.
  rewrite andb_true_r in Hu. now apply String.eqb_neq.
Qed.

Lemma castAndValidate_rejected (n s e j : Value) (error : MongooseError) :
  castAndValidate n s e j = Rejected error ->
  exists paths, error = ValidationError paths.
Proof.
  unfold castAndValidate. cbv zeta.
  repeat match goal with
    | |- context [match ?x with _ => _ end] => destruct x
    end;
    intros [= <-]; eauto.
Qed.

(** The outcomes of POST /sign-up served alone, once validation has
    passed: conflict, rejected by the schema, or created. *)
Lemma signUp_outcomes (v : string -> bool) (body : Body) (st : Store) :
  validationResult v signUpChains body = [] ->
  run (signUp v body) st = (conflict "User with this email already exists.", st)
  \/ (exists paths,
         castAndValidate (body "name") (body "surname") (body "email")
           (body "jobTitle") = Rejected (ValidationError paths)
         /\ run (signUp v body) st = (failure (ValidationError paths), st))
  \/ status (fst (run (signUp v body) st)) = 201.
Proof.
  intros Hval. rewrite (run_signUp_valid v body st Hval).
  destruct (List.find _ (crud st)) eqn:Hfind; [now left|]. right.
  cbn [exec].
  destruct (castAndValidate _ _ _ _) as [[[[vn vs] ve] vj]|error] eqn:Hcast.
  - right.
    destruct (castAndValidate_fulfilled _ _ _ _ _ _ _ _ Hcast)
      as (_ & _ & (e0 & He0 & -> & _) & _).
    rewrite He0 in Hfind. cbn [castString option_map] in Hfind.
    fold (normalizeEmail e0) in Hfind.
    now rewrite (precheck_no_duplicate _ _ Hfind).
  - left. destruct (castAndValidate_rejected _ _ _ _ _ Hcast) as [paths ->].
    exists paths. split; reflexivity.
Qed.

(** The outcomes of PUT /users/:id served alone, once validation has
    passed and the id casts. *)
Lemma updateUser_outcomes (v : string -> bool) (id : string) (oid : ObjectId)
  (body : Body) (st : Store) :
  validationResult v updateChains body = [] ->
  castObjectId id = Some oid ->
  run (updateUser v id body) st
  = (conflict "Another user with this email already exists.", st)
  \/ (exists paths,
         castAndValidate (body "name") (body "surname") (body "email")
           (body "jobTitle") = Rejected (ValidationError paths)
         /\ run (updateUser v id body) st
            = (failure (ValidationError (rev paths)), st))
  \/ run (updateUser v id body) st = (notFound, st)
  \/ status (fst (run (updateUser v id body) st)) = 200.
Proof.
  intros Hval Hid. rewrite (run_updateUser_valid v id oid body st Hval Hid).
  destruct (List.find _ (crud st)) eqn:Hfind; [now left|]. right.
  cbn [exec]. rewrite Hid.
  destruct (castAndValidate _ _ _ _) as [[[[vn vs] ve] vj]|error] eqn:Hcast.
  - right.
    destruct (castAndValidate_fulfilled _ _ _ _ _ _ _ _ Hcast)
      as (_ & _ & (e0 & He0 & -> & _) & _).
    rewrite He0 in Hfind. cbn [castString option_map] in Hfind.
    fold (normalizeEmail e0) in Hfind.
    destruct (List.find (hasId oid) (crud st)); [|now left].
    right. now rewrite (precheck_ne_no_duplicate _ _ _ Hfind).
  - left. destruct (castAndValidate_rejected _ _ _ _ _ Hcast) as [paths ->].
    exists paths. split; reflexivity.
Qed.

(** X9: a request that is answered with an error status (400, 404 or
    500) has changed nothing in the store. *)
Theorem failed_request_changes_nothing (v : string -> bool) (req : Request)
  (st : Store) :
  400 <= status (fst (run (handler v req) st)) ->
  snd (run (handler v req) st) = st.
Proof.
  intros Herr.
  destruct (bodyErrors v req) as [|err errs] eqn:Hval.
  2: { rewrite (handler_invalid v req) by (rewrite Hval; discriminate).
       reflexivity. }
  destruct req as [body | | id | id body | id]; cbn [bodyErrors handler] in *.
  - destruct (signUp_outcomes v body st Hval) as [H|[(paths & _ & H)|H]];
      [now rewrite H | now rewrite H | rewrite H in Herr; lia].
  - reflexivity.
  - unfold getUser, awaitTry. cbn [run exec].
    destruct (castObjectId id); [|reflexivity].
    destruct (List.find _ (crud st)); reflexivity.
  - destruct (castObjectId id) as [oid|] eqn:Hid.
    + destruct (updateUser_outcomes v id oid body st Hval Hid)
        as [H|[(paths & _ & H)|[H|H]]];
        [now rewrite H | now rewrite H | now rewrite H
        | rewrite H in Herr; lia].
    + now rewrite (run_updateUser_malformed v id body st Hval Hid).
  - unfold deleteUser, awaitTry in *. cbn [run exec] in *.
    destruct (castObjectId id); [|reflexivity].
    destruct (List.find _ (crud st)); [cbn in Herr; lia | reflexivity].
Qed.

Lemma failed_request_changes_nothing_witness :
  snd (run (handler Validator.isEmail (PostSignUp Sample.shout)) Sample.oneUser)
  = Sample.oneUser.
Proof.
  apply (failed_request_changes_nothing Validator.isEmail
           (PostSignUp Sample.shout) Sample.oneUser).
  vm_compute. lia.
Defined.

(** X10: GET /users and GET /users/:id never change the store, whatever
    the id and whatever they answer. *)
Theorem reads_change_nothing (v : string -> bool) (req : Request) (st : Store) :
  readOnly req = true ->
  snd (run (handler v req) st) = st.
Proof.
  destruct req as [body | | id | id body | id]; cbn [readOnly handler];
    try discriminate; intros _.
  - reflexivity.
  - unfold getUser, awaitTry. cbn [run exec].
    destruct (castObjectId id); [|reflexivity].
    destruct (List.find _ (crud st)); reflexivity.
Qed.

Lemma reads_change_nothing_witness :
  snd (run (handler Validator.isEmail (GetUser Sample.id0)) Sample.oneUser)
  = Sample.oneUser.
Proof.
  exact (reads_change_nothing Validator.isEmail (GetUser Sample.id0)
           Sample.oneUser eq_refl).
Defined.

(** X11: a request served alone is never answered with a duplicate-key
    error: the pre-check of POST /sign-up and PUT /users/:id reads the
    e-mail through the same cast as the write, so when it passes, the
    unique index accepts the write. *)
Theorem served_alone_never_duplicate_key (v : string -> bool) (req : Request)
  (st : Store) (index value : string) :
  fst (run (handler v req) st) <> failure (DuplicateKeyError index value).
Proof.
  destruct (bodyErrors v req) as [|err errs] eqn:Hval.
  2: { rewrite (handler_invalid v req) by (rewrite Hval; discriminate).
       discriminate. }
  destruct req as [body | | id | id body | id]; cbn [bodyErrors handler] in *.
  - destruct (signUp_outcomes v body st Hval) as [H|[(paths & _ & H)|H]];
      try (rewrite H; discriminate).
    intros E. rewrite E in H. discriminate.
  - discriminate.
  - unfold getUser, awaitTry. cbn [run exec].
    destruct (castObjectId id); [|discriminate].
    destruct (List.find _ (crud st)); discriminate.
  - destruct (castObjectId id) as [oid|] eqn:Hid.
    + destruct (updateUser_outcomes v id oid body st Hval Hid)
        as [H|[(paths & _ & H)|[H|H]]]; try (rewrite H; discriminate).
      intros E. rewrite E in H. discriminate.
    + rewrite (run_updateUser_malformed v id body st Hval Hid). discriminate.
  - unfold deleteUser, awaitTry. cbn [run exec].
    destruct (castObjectId id); [|discriminate].
    destruct (List.find _ (crud st)); discriminate.
Qed.

(** ** Fields of white space only *)

Lemma castAndValidate_blank (n s e j : string) :
  normalizeEmail e <> "" ->
  JS.trim n = "" \/ JS.trim s = "" \/ JS.trim j = "" ->
  exists paths,
    castAndValidate (Some n) (Some s) (Some e) (Some j)
    = Rejected (ValidationError paths)
    /\ forall f, In f paths
                 <-> (f = "name" /\ JS.trim n = "")
                     \/ (f = "surname" /\ JS.trim s = "")
                     \/ (f = "jobTitle" /\ JS.trim j = "").
Proof.
  intros He Hblank.
  unfold castAndValidate, invalidPaths, checkRequired, castString.
  cbv [applySetters userSchema.name userSchema.surname userSchema.email
       userSchema.jobTitle lowercase trim required option_map].
  rewrite normalizeEmail_unfold in He. apply String.eqb_neq in He. rewrite He.
  destruct (String.eqb_spec (JS.trim n) "") as [En|En],
    (String.eqb_spec (JS.trim s) "") as [Es|Es],
    (String.eqb_spec (JS.trim j) "") as [Ej|Ej];
    cbn [negb app];
    try (eexists; split; [reflexivity|];
         intros f; simpl; split;
         [ intros H; repeat destruct H as [<-|H]; try destruct H; auto 6
         | intros [[-> H]|[[-> H]|[-> H]]]; solve [auto 6 | contradiction] ]).
  exfalso. tauto.
Qed.

Lemma whiteSpaceOnly_trim (s : string) : JS.trim s = "" <-> whiteSpaceOnly s.
Proof. apply trim_empty_iff. Qed.

Lemma blank_paths (n s j : string) (paths : list string) :
  (forall f, In f paths
             <-> (f = "name" /\ JS.trim n = "")
                 \/ (f = "surname" /\ JS.trim s = "")
                 \/ (f = "jobTitle" /\ JS.trim j = "")) ->
  forall f, In f paths
            <-> (f = "name" /\ whiteSpaceOnly n)
                \/ (f = "surname" /\ whiteSpaceOnly s)
                \/ (f = "jobTitle" /\ whiteSpaceOnly j).
Proof.
  intros H f. rewrite (H f), !whiteSpaceOnly_trim. reflexivity.
Qed.

(** X12: a create request that passes the chains and whose e-mail is
    free, but whose name, surname or jobTitle is white space only, is
    answered 500: the schema trims the field to the empty string and the
    save is rejected by [required].  The error names exactly the fields
    of white space only, and nothing is stored. *)
Theorem create_with_blank_field_is_500 (v : string -> bool) (st : Store)
  (body : Body) (n s e j : string) :
  (forall x, v x = true -> nonBlank x) ->
  body "name" = Some n -> body "surname" = Some s ->
  body "email" = Some e -> body "jobTitle" = Some j ->
  n <> "" -> s <> "" -> j <> "" -> v e = true ->
  (forall u, In u (crud st) -> email u <> normalizeEmail e) ->
  whiteSpaceOnly n \/ whiteSpaceOnly s \/ whiteSpaceOnly j ->
  exists paths,
    run (signUp v body) st = (failure (ValidationError paths), st)
    /\ forall f, In f paths
                 <-> (f = "name" /\ whiteSpaceOnly n)
                     \/ (f = "surname" /\ whiteSpaceOnly s)
                     \/ (f = "jobTitle" /\ whiteSpaceOnly j).
Proof.
  intros Hv Bn Bs Be Bj Hn Hs Hj He Hfree Hblank.
  rewrite <- !whiteSpaceOnly_trim in Hblank.
  destruct (castAndValidate_blank n s e j (normalizeEmail_nonBlank e (Hv e He))
              Hblank) as (paths & Hcast & Hpaths).
  exists paths. split; [|now apply blank_paths].
  rewrite (run_signUp_valid v body st) by (eapply validation_passes; eauto).
  rewrite Bn, Bs, Be, Bj.
  replace (List.find _ (crud st)) with (@None User).
  2: { symmetry. apply find_none. intros u Hu. simpl.
       apply String.eqb_neq. now apply Hfree. }
  cbn [exec]. now rewrite Hcast.
Qed.

Lemma create_with_blank_field_is_500_witness :
  run (signUp Validator.isEmail Sample.blanks) Sample.oneUser
  = (failure (ValidationError ["name"; "jobTitle"]), Sample.oneUser)
  /\ forall f, In f ["name"; "jobTitle"]
               <-> (f = "name" /\ whiteSpaceOnly " ")
                   \/ (f = "surname" /\ whiteSpaceOnly "Lee")
                   \/ (f = "jobTitle" /\ whiteSpaceOnly "  ").
Proof.
  destruct (create_with_blank_field_is_500 Validator.isEmail Sample.oneUser
              Sample.blanks " " "Lee" "lee@x.io" "  " isEmail_nonBlank)
    as (paths & Hrun & Hpaths);
    try reflexivity; try discriminate.
  - intros u [<-|[]]. discriminate.
  - left. reflexivity.
  - assert (E := Hrun). vm_compute in E. injection E as <-.
    split; [exact Hrun | exact Hpaths].
Defined.

(** X18: an update request with an id of 24 hexadecimal digits that
    passes the chains and whose e-mail no other record holds, but whose
    name, surname or jobTitle is white space only, is answered 500,
    whether or not the id matches a record: the update validators reject
    the trimmed field.  The error names exactly the fields of white space
    only, and nothing is stored. *)
Theorem update_with_blank_field_is_500 (v : string -> bool) (st : Store)
  (id : string) (oid : ObjectId) (body : Body) (n s e j : string) :
  (forall x, v x = true -> nonBlank x) ->
  castObjectId id = Some oid ->
  body "name" = Some n -> body "surname" = Some s ->
  body "email" = Some e -> body "jobTitle" = Some j ->
  n <> "" -> s <> "" -> j <> "" -> v e = true ->
  (forall u, In u (crud st) -> _id u <> oid -> email u <> normalizeEmail e) ->
  whiteSpaceOnly n \/ whiteSpaceOnly s \/ whiteSpaceOnly j ->
  exists paths,
    run (updateUser v id body) st = (failure (ValidationError paths), st)
    /\ forall f, In f paths
                 <-> (f = "name" /\ whiteSpaceOnly n)
                     \/ (f = "surname" /\ whiteSpaceOnly s)
                     \/ (f = "jobTitle" /\ whiteSpaceOnly j).
Proof.
  intros Hv Hid Bn Bs Be Bj Hn Hs Hj He Hfree Hblank.
  rewrite <- !whiteSpaceOnly_trim in Hblank.
  destruct (castAndValidate_blank n s e j (normalizeEmail_nonBlank e (Hv e He))
              Hblank) as (paths & Hcast & Hpaths).
  exists (rev paths). split.
  - rewrite (run_updateUser_valid v id oid body st)
      by (first [eapply validation_passes; eauto | assumption]).
    rewrite Bn, Bs, Be, Bj.
    replace (List.find _ (crud st)) with (@None User).
    2: { symmetry. apply find_none. intros u Hu.
         cbn [castString option_map hasEmail]. fold (normalizeEmail e).
         destruct (N.eq_dec (_id u) oid) as [E|E].
         - unfold hasId. apply N.eqb_eq in E. rewrite E. apply andb_false_r.
         - replace (email u =? normalizeEmail e)%string with false;
             [reflexivity|].
           symmetry. apply String.eqb_neq. now apply Hfree. }
    cbn [exec]. rewrite Hid. now rewrite Hcast.
  - intros f. rewrite <- in_rev. now apply blank_paths.
Qed.

Lemma update_with_blank_field_is_500_witness :
  run (updateUser Validator.isEmail Sample.id0 Sample.blanks) Sample.oneUser
  = (failure (ValidationError ["jobTitle"; "name"]), Sample.oneUser)
  /\ forall f, In f ["jobTitle"; "name"]
               <-> (f = "name" /\ whiteSpaceOnly " ")
                   \/ (f = "surname" /\ whiteSpaceOnly "Lee")
                   \/ (f = "jobTitle" /\ whiteSpaceOnly "  ").
Proof.
  destruct (update_with_blank_field_is_500 Validator.isEmail Sample.oneUser
              Sample.id0 0%N Sample.blanks " " "Lee" "lee@x.io" "  "
              isEmail_nonBlank)
    as (paths & Hrun & Hpaths);
    try reflexivity; try discriminate.
  - intros u [<-|[]] H. now destruct H.
  - left. reflexivity.
  - assert (E := Hrun). vm_compute in E. injection E as <-.
    split; [exact Hrun | exact Hpaths].
Defined.

(** ** Requests in flight together *)

Lemma resume_reachable (R : Type) (p : Async R) (st : Store) :
  reachable st -> reachable (snd (resume p st)).
Proof.
  destruct p as [r | X call k]; simpl; [auto|].
  intros Hst. destruct (exec call st) as [settled st'] eqn:E.
  change st' with (snd (settled, st')). rewrite <- E. now apply reach_call.
Qed.

Lemma interleave_reachable (R : Type) (schedule : list bool) :
  forall (p q : Async R) (st : Store),
    reachable st -> reachable (snd (interleave schedule p q st)).
Proof.
  induction schedule as [|turn rest IH]; intros p q st Hst; simpl; [auto|].
  destruct turn.
  - destruct (resume p st) as [p' st'] eqn:E. apply IH.
    change st' with (snd (p', st')). rewrite <- E. now apply resume_reachable.
  - destruct (resume q st) as [q' st'] eqn:E. apply IH.
    change st' with (snd (q', st')). rewrite <- E. now apply resume_reachable.
Qed.

(** X13: however the event loop interleaves the model calls of two
    requests in flight, no two records of the collection end up with the
    same normalized e-mail. *)
Theorem interleaving_keeps_emails_unique (v : string -> bool)
  (schedule : list bool) (first second : Request) (st : Store) :
  reachable st ->
  uniqueEmails (snd (interleave schedule (handler v first) (handler v second) st)).
Proof.
  intros Hst. apply store_ok_uniqueEmails, reachable_store_ok.
  now apply interleave_reachable.
Qed.

Lemma interleaving_keeps_emails_unique_witness :
  uniqueEmails
    (snd (interleave [true; false; false; true]
            (handler Validator.isEmail (PostSignUp Sample.bob))
            (handler Validator.isEmail (PostSignUp Sample.shout))
            (emptyStore 5))).
Proof.
  exact (interleaving_keeps_emails_unique Validator.isEmail
           [true; false; false; true] (PostSignUp Sample.bob)
           (PostSignUp Sample.shout) (emptyStore 5) (reach_empty 5)).
Defined.

Lemma duplicateKey_last (e : string) (docs : list User) (doc : User) :
  email doc = e -> duplicateKey e None (docs ++ [doc]) = true.
Proof.
  intros He. unfold duplicateKey. cbn [unique userSchema.email andb].
  apply existsb_exists. exists doc. split.
  - apply in_or_app. right. left. reflexivity.
  - now rewrite He, String.eqb_refl.
Qed.

(** X14: two create requests with the same normalized e-mail, both
    acceptable on their own, whose pre-checks both run before either
    save, in either order ([precheck] says whether the first request
    checks first, [saves] whether it saves first): the request that saves
    first is answered 201, the other one 500 with the duplicate-key
    error, and exactly one record is added, the one of the request that
    saved first. *)
Theorem race_creates_one_record (v : string -> bool) (st : Store)
  (precheck saves : bool)
  (b1 b2 : Body) (n1 s1 e1 j1 n2 s2 e2 j2 : string) :
  (forall x, v x = true -> nonBlank x) ->
  b1 "name" = Some n1 -> b1 "surname" = Some s1 ->
  b1 "email" = Some e1 -> b1 "jobTitle" = Some j1 ->
  b2 "name" = Some n2 -> b2 "surname" = Some s2 ->
  b2 "email" = Some e2 -> b2 "jobTitle" = Some j2 ->
  nonBlank n1 -> nonBlank s1 -> nonBlank j1 -> v e1 = true ->
  nonBlank n2 -> nonBlank s2 -> nonBlank j2 -> v e2 = true ->
  normalizeEmail e1 = normalizeEmail e2 ->
  (forall u, In u (crud st) -> email u <> normalizeEmail e1) ->
  let doc1 := {| _id := nextId st; name := JS.trim n1; surname := JS.trim s1;
                 email := normalizeEmail e1; jobTitle := JS.trim j1;
                 createdAt := now st; updatedAt := now st |} in
  let doc2 := {| _id := nextId st; name := JS.trim n2; surname := JS.trim s2;
                 email := normalizeEmail e2; jobTitle := JS.trim j2;
                 createdAt := now st; updatedAt := now st |} in
  let duplicate := failure (DuplicateKeyError "email_1" (normalizeEmail e1)) in
  interleave [precheck; negb precheck; saves; negb saves]
    (signUp v b1) (signUp v b2) st
  = (Done (if saves then created doc1 else duplicate),
     Done (if saves then duplicate else created doc2),
     {| crud := crud st ++ [if saves then doc1 else doc2];
        nextId := N.succ (nextId st); now := now st |}).
Proof.
  intros Hv B1n B1s B1e B1j B2n B2s B2e B2j Hn1 Hs1 Hj1 He1 Hn2 Hs2 Hj2 He2
    Hsame Hfree doc1 doc2 duplicate.
  assert (Hval1 : validationResult v signUpChains b1 = [])
    by (eapply validation_passes; eauto using nonBlank_nonempty).
  assert (Hval2 : validationResult v signUpChains b2 = [])
    by (eapply validation_passes; eauto using nonBlank_nonempty).
  assert (Hfind1 : List.find (hasEmail (Some (normalizeEmail e1))) (crud st)
                   = None).
  { apply find_none. intros u Hu. simpl. apply String.eqb_neq. auto. }
  assert (Hfind2 : List.find (hasEmail (Some (normalizeEmail e2))) (crud st)
                   = None) by (now rewrite <- Hsame).
  assert (Hcast1 := castAndValidate_nonBlank n1 s1 e1 j1 Hn1 Hs1
                      (normalizeEmail_nonBlank e1 (Hv e1 He1)) Hj1).
  assert (Hcast2 := castAndValidate_nonBlank n2 s2 e2 j2 Hn2 Hs2
                      (normalizeEmail_nonBlank e2 (Hv e2 He2)) Hj2).
  assert (Hfree1 := duplicateKey_none (normalizeEmail e1) None (crud st) Hfree).
  assert (Hfree2 : duplicateKey (normalizeEmail e2) None (crud st) = false)
    by (now rewrite <- Hsame).
  assert (Hdup1 : duplicateKey (normalizeEmail e1) None (crud st ++ [doc2])
                  = true) by (apply duplicateKey_last; symmetry; exact Hsame).
  assert (Hdup2 : duplicateKey (normalizeEmail e2) None (crud st ++ [doc1])
                  = true) by (apply duplicateKey_last; exact Hsame).
  unfold signUp. rewrite Hval1, Hval2. cbn [isEmptyResult negb].
  rewrite B1n, B1s, B1e, B1j, B2n, B2s, B2e, B2j.
  unfold awaitTry.
  destruct precheck, saves; cbn [negb interleave resume];
    cbn [exec castString option_map];
    change (applySetters userSchema.email e1) with (normalizeEmail e1);
    change (applySetters userSchema.email e2) with (normalizeEmail e2);
    rewrite Hfind1, Hfind2; cbn [resume exec];
    rewrite ?Hcast1, ?Hcast2, ?Hfree1, ?Hfree2; cbn [resume exec crud];
    rewrite ?Hcast1, ?Hcast2; fold doc1; fold doc2;
    rewrite ?Hdup1, ?Hdup2; subst duplicate; rewrite <- ?Hsame;
    reflexivity.
Qed.

Lemma race_creates_one_record_witness :
  interleave [true; false; true; false]
    (signUp Validator.isEmail Sample.bob)
    (signUp Validator.isEmail Sample.shout) Sample.oneUser'
  = (Done (created {| _id := 1%N; name := "Bob"; surname := "Lee";
                      email := "bob@x.io"; jobTitle := "dev";
                      createdAt := 7%N; updatedAt := 7%N |}),
     Done (failure (DuplicateKeyError "email_1" "bob@x.io")),
     {| crud := crud Sample.oneUser'
                ++ [ {| _id := 1%N; name := "Bob"; surname := "Lee";
                        email := "bob@x.io"; jobTitle := "dev";
                        createdAt := 7%N; updatedAt := 7%N |} ];
        nextId := 2%N; now := 7%N |}).
Proof.
  apply (race_creates_one_record Validator.isEmail Sample.oneUser' true true
           Sample.bob Sample.shout "Bob" "Lee" "bob@x.io" "dev"
           "Al" "Ray" "BOB@X.io" "ops" isEmail_nonBlank);
    try reflexivity; try (vm_compute; discriminate).
  intros u [<-|[]]. discriminate.
Defined.

(** ** What is reported and what is stored *)

(** X15: every entry of the errors a create or update request is
    answered with names a field of the body, carries the message server.js
    attaches to that field and the value the body has under it, and is
    located in the body. *)
Theorem errors_carry_messages (v : string -> bool) (req : Request)
  (body : Body) (err : FieldError) :
  bodyOf req = Some body ->
  In err (bodyErrors v req) ->
  In (errParam err, errMsg err) fieldMessages
  /\ errValue err = body (errParam err)
  /\ errLocation err = "body".
Proof.
  intros Hbody Hin.
  assert (Hin' : In err (validationResult v signUpChains body)).
  { destruct req; try discriminate; injection Hbody as ->; exact Hin. }
  clear Hin. unfold validationResult in Hin'.
  apply in_flat_map in Hin' as (c & Hc & Herr).
  unfold runChain in Herr.
  destruct (passes v (validator c) (toString (body (param c))));
    [destruct Herr|].
  destruct Herr as [<-|[]]. cbn [errParam errMsg errValue errLocation].
  split; [|split; reflexivity].
  unfold signUpChains in Hc. unfold fieldMessages.
  destruct Hc as [<-|[<-|[<-|[<-|[]]]]]; cbn [param msg]; simpl; tauto.
Qed.

Lemma errors_carry_messages_witness :
  let err := {| errValue := Some ""; errMsg := "Surname is required.";
                errParam := "surname"; errLocation := "body" |} in
  In (errParam err, errMsg err) fieldMessages
  /\ errValue err = mkBody None (Some "") None None (errParam err)
  /\ errLocation err = "body".
Proof.
  apply (errors_carry_messages Validator.isEmail
           (PutUser Sample.id0 (mkBody None (Some "") None None))
           (mkBody None (Some "") None None)
           {| errValue := Some ""; errMsg := "Surname is required.";
              errParam := "surname"; errLocation := "body" |} eq_refl).
  vm_compute. right. left. reflexivity.
Defined.

Lemma noOuterSpace_trim (s : string) : noOuterSpace (JS.trim s).
Proof. exact (proj2 (trim_trimmedFrom s)). Qed.

Lemma conforms_cast (n s e j : Value) (vn vs ve vj : string)
  (id created updated : N) :
  castAndValidate n s e j = Fulfilled (vn, vs, ve, vj) ->
  conforms {| _id := id; name := vn; surname := vs; email := ve;
              jobTitle := vj; createdAt := created; updatedAt := updated |}.
Proof.
  intros Hcast. apply castAndValidate_fulfilled in Hcast
    as ((n0 & _ & -> & Hn) & (s0 & _ & -> & Hs) & (e0 & _ & -> & He)
        & (j0 & _ & -> & Hj)).
  unfold conforms. cbn [name surname email jobTitle].
  split; [exact Hn|]. split; [apply noOuterSpace_trim|].
  split; [exact Hs|]. split; [apply noOuterSpace_trim|].
  split; [exact He|].
  split; [rewrite normalizeEmail_unfold; apply noOuterSpace_trim|].
  split; [apply normalizeEmail_noUpperCase|].
  split; [exact Hj | apply noOuterSpace_trim].
Qed.

Lemma exec_conforms (X : Type) (call : ModelCall X) (st : Store) :
  Forall conforms (crud st) -> Forall conforms (crud (snd (exec call st))).
Proof.
  intros Hok. destruct call as [e | e id | n s e j | | id | id n s e j | id];
    simpl; try assumption.
  - destruct (castObjectId id); assumption.
  - destruct (castAndValidate n s e j) as [[[[vn vs] ve] vj]|err] eqn:Hcast;
      [|assumption].
    destruct (duplicateKey ve None (crud st)); [assumption|].
    simpl. apply Forall_app. split; [assumption|].
    constructor; [|constructor]. eapply conforms_cast; eauto.
  - destruct (castObjectId id); assumption.
  - destruct (castObjectId id) as [oid|]; [|assumption].
    destruct (castAndValidate n s e j) as [[[[vn vs] ve] vj]|err] eqn:Hcast;
      [|assumption].
    destruct (List.find (hasId oid) (crud st)) as [old|] eqn:Hfind;
      [|assumption].
    destruct (duplicateKey ve (Some oid) (crud st)); [assumption|].
    simpl.
    destruct (find_split _ _ _ Hfind) as (before & after & Hd & _ & Hrep & _).
    rewrite Hrep. rewrite Hd in Hok.
    eapply Forall_replace_middle; [exact Hok|].
    eapply conforms_cast; eauto.
  - destruct (castObjectId id) as [oid|]; [|assumption].
    destruct (List.find (hasId oid) (crud st)) as [old|] eqn:Hfind;
      [|assumption].
    simpl.
    destruct (find_split _ _ _ Hfind) as (before & after & Hd & _ & _ & Hrem).
    rewrite Hrem. rewrite Hd in Hok. eapply Forall_remove_middle; eauto.
Qed.

(** X16: every record the collection can hold conforms to the schema:
    name, surname, email and jobTitle are not empty and neither start nor
    end with white space, and the e-mail has no capital letter. *)
Theorem stored_records_conform (st : Store) (u : User) :
  reachable st ->
  In u (crud st) ->
  conforms u.
Proof.
  intros Hst. revert u. apply Forall_forall.
  induction Hst as [t | X call st _ IH | st t _ IH].
  - constructor.
  - now apply exec_conforms.
  - exact IH.
Qed.

Lemma stored_records_conform_witness :
  conforms {| _id := 1%N; name := "Ann"; surname := "Kay"; email := "ann@x.io";
              jobTitle := "qa"; createdAt := 5%N; updatedAt := 5%N |}.
Proof.
  apply (stored_records_conform
           (snd (run (signUp Validator.isEmail Sample.ann') Sample.oneUser))).
  - apply run_reachable. exact oneUser_reachable.
  - right. left. reflexivity.
Defined.
